(** * configur: layered settings resolution ([configur/config.py])

    A shallow embedding of the [Settings] class: the nested store, the
    per-key resolution chain of [_set_value_from_config], [load], and the
    two read paths ([__getattr__] and [__getitem__]).

    Python objects are a tagged type; exceptions are an explicit outcome
    that keeps the state reached when they were raised (a failed call
    leaves its earlier mutations in place, as in Python); the process
    environment, the file system with the TOML reader, the SSM client and
    the [Box] class namespace are collaborators gathered in a [World]. *)

From Stdlib Require Import ZArith Ascii String List Bool Lia.
From stdpp Require Import base option gmap strings.

Local Open Scope string_scope.
Local Open Scope Z_scope.

#[local] Arguments String.append !_ _ / : simpl nomatch.

(** ** Python string operations

    A Python string is carried as the bytes of its UTF-8 encoding. What the
    code does with the markers [${], [}], [ssm:] and the line feed is the
    same on bytes as on characters. Case mapping and [int] are computed
    here for ASCII strings; on other strings they are the interpreter's
    Unicode tables, taken from the [World] below. *)

Module PyStr.

Definition code (c : ascii) : nat := nat_of_ascii c.

Definition between (lo hi : nat) (c : ascii) : bool :=
  (Nat.leb lo (code c)) && (Nat.leb (code c) hi).

Definition upper_char (c : ascii) : ascii :=
  if between 97 122 c then ascii_of_nat (code c - 32) else c.

Definition lower_char (c : ascii) : ascii :=
  if between 65 90 c then ascii_of_nat (code c + 32) else c.

Fixpoint map_chars (f : ascii -> ascii) (s : string) : string :=
  match s with
  | EmptyString => EmptyString
  | String c s' => String (f c) (map_chars f s')
  end.

(** [str.upper()] and [str.lower()] on an ASCII string. *)
Definition ascii_upper : string -> string := map_chars upper_char.
Definition ascii_lower : string -> string := map_chars lower_char.

(** The string holds ASCII characters only. *)
Fixpoint is_ascii (s : string) : bool :=
  match s with
  | EmptyString => true
  | String c s' => Nat.ltb (code c) 128 && is_ascii s'
  end.

(** [s.startswith(p)]. *)
Definition startswith (p s : string) : bool := String.prefix p s.

(** [s.endswith(p)]. *)
Definition endswith (p s : string) : bool :=
  let n := String.length s in
  let m := String.length p in
  Nat.leb m n && String.eqb (String.substring (n - m) m s) p.

(** [s.replace(old, new)] for a non-empty [old]: every occurrence, left
    to right, without overlap. [skip] counts the characters of a match
    that are still to be dropped. *)
Fixpoint replace_from (old new : string) (skip : nat) (s : string) : string :=
  match s with
  | EmptyString => EmptyString
  | String c s' =>
      match skip with
      | S k => replace_from old new k s'
      | O =>
          if String.prefix old s
          then new ++ replace_from old new (String.length old - 1) s'
          else String c (replace_from old new O s')
      end
  end.

Definition replace (old new s : string) : string := replace_from old new O s.

Definition newline : ascii := ascii_of_nat 10.

(** The group of the regular expression [\${(.*?)}] once its [${] has
    been read: the shortest run of characters other than a line feed
    that is followed by a closing brace. *)
Fixpoint lazy_group (s : string) : option string :=
  match s with
  | EmptyString => None
  | String c s' =>
      if Ascii.eqb c "}" then Some EmptyString
      else if Ascii.eqb c newline then None
      else option_map (String c) (lazy_group s')
  end.

(** [re.findall(r'\${(.*?)}', s)[0]] when there is a match: the group of
    the leftmost match. [None] stands for the empty result list. *)
Fixpoint first_interpolation (s : string) : option string :=
  match s with
  | EmptyString => None
  | String c s' =>
      match (if Ascii.eqb c "$" then
               match s' with
               | String b rest => if Ascii.eqb b "{" then lazy_group rest else None
               | EmptyString => None
               end
             else None) with
      | Some g => Some g
      | None => first_interpolation s'
      end
  end.

(** White space as [int()] skips it in an ASCII string: tab to carriage
    return, and space. *)
Definition is_space (c : ascii) : bool :=
  between 9 13 c || Ascii.eqb c " ".

Fixpoint lstrip (l : list ascii) : list ascii :=
  match l with
  | c :: l' => if is_space c then lstrip l' else l
  | [] => []
  end.

Definition strip (l : list ascii) : list ascii :=
  List.rev (lstrip (List.rev (lstrip l))).

Definition digit (c : ascii) : option Z :=
  if between 48 57 c then Some (Z.of_nat (code c - 48)) else None.

(** Decimal digits, where single underscores may separate digits. *)
Fixpoint digits (acc : Z) (after_digit : bool) (l : list ascii) : option Z :=
  match l with
  | [] => if after_digit then Some acc else None
  | c :: l' =>
      match digit c with
      | Some d => digits (acc * 10 + d) true l'
      | None =>
          if Ascii.eqb c "_" && after_digit then digits acc false l' else None
      end
  end.

Definition literal_value (s : string) : option Z :=
  match strip (list_ascii_of_string s) with
  | c :: l =>
      if Ascii.eqb c "-" then option_map Z.opp (digits 0 false l)
      else if Ascii.eqb c "+" then digits 0 false l
      else digits 0 false (c :: l)
  | [] => None
  end.

(** The number of digits of the literal. *)
Definition count_digits (s : string) : nat :=
  List.length (List.filter (between 48 57) (list_ascii_of_string s)).

(** [int(s)] on an ASCII string, base ten; [None] is [ValueError]. A
    literal of more than [max_digits] digits is refused when the
    interpreter's limit [max_digits] is not zero. *)
Definition ascii_int (max_digits : nat) (s : string) : option Z :=
  match literal_value s with
  | Some z =>
      if negb (Nat.eqb max_digits 0) && Nat.ltb max_digits (count_digits s)
      then None else Some z
  | None => None
  end.

End PyStr.

(** ** Python objects *)

(** An IEEE double, carried as its bit pattern: no float arithmetic is
    needed, only storing and comparing. *)
Record pyfloat := Float64 { float_bits : Z }.

(** The three classes for which [isinstance(value, dict)] holds here: the
    builtin [dict], tomlkit's [Table] and [Box]. *)
Inductive dict_kind := PlainDict | TomlTable | BoxDict.

(** The values the resolver sees and stores. [Toml*] are tomlkit's scalar
    wrappers ([items.String], [items.Integer], [items.Float],
    [items.Bool]), the keys of [TOML_TO_BUILTIN_MAP]; the [Py*] scalars are
    the builtin types. A mapping keeps its items in insertion order. *)
#[warnings="-register-all"]
Inductive pyobj :=
| PyNone
| PyStr (s : string)
| PyInt (z : Z)
| PyFloat (f : pyfloat)
| PyBool (b : bool)
| TomlString (s : string)
| TomlInteger (z : Z)
| TomlFloat (f : pyfloat)
| TomlBool (b : bool)
| PyDict (kind : dict_kind) (items : list (string * pyobj)).

Definition pyitems := list (string * pyobj).

(** [isinstance(value, dict)] *)
Definition is_dict (v : pyobj) : bool :=
  match v with PyDict _ _ => true | _ => false end.

(** [isinstance(value, str)]: [items.String] is a subclass of [str]. *)
Definition as_str (v : pyobj) : option string :=
  match v with
  | PyStr s | TomlString s => Some s
  | _ => None
  end.

(** ** Insertion-ordered dictionaries *)

Section Dict.
Context {A : Type}.

(** [d.get(k)] / [d[k]] *)
Fixpoint dict_get (d : list (string * A)) (k : string) : option A :=
  match d with
  | [] => None
  | (k', v) :: d' => if String.eqb k' k then Some v else dict_get d' k
  end.

(** [k in d] *)
Definition dict_contains (d : list (string * A)) (k : string) : bool :=
  match dict_get d k with Some _ => true | None => false end.

(** [d[k] = v]: an existing key keeps its position, a new key goes last. *)
Fixpoint dict_set (d : list (string * A)) (k : string) (v : A) : list (string * A) :=
  match d with
  | [] => [(k, v)]
  | (k', v') :: d' =>
      if String.eqb k' k then (k, v) :: d' else (k', v') :: dict_set d' k v
  end.

(** [d.keys()] *)
Definition dict_keys (d : list (string * A)) : list string := map fst d.

End Dict.

(** [Box(value)]: a mapping becomes a [Box], and so does every mapping
    nested in it; other values are kept as they are. *)
Fixpoint to_box (v : pyobj) : pyobj :=
  match v with
  | PyDict _ items =>
      PyDict BoxDict (map (fun kv => let '(k, x) := kv in (k, to_box x)) items)
  | _ => v
  end.

(** ** Exceptions, log records and collaborators *)

Inductive exn :=
| OSError               (* "Could not load the default or provided settings file." *)
| MissingDefaultSection (* Exception("Settings file missing required section 'default'") *)
| ImportError           (* "boto3 not available and is required to read from SSM." *)
| KeyError
| AttributeError
| TypeError
| IndexError
| ReadError             (* open() or tomlkit.parse() failed *)
| ProviderError.        (* an exception of the SSM client other than ClientError *)

Inductive log_record :=
| LogInfoCastFailed (parent : option string) (name : string) (attr : option string)
| LogErrorClientError (parameter : string).

(** What [self._ssm.get_parameter(Name=..., WithDecryption=True)] does. *)
Inductive ssm_outcome :=
| SsmParameter (value : string)  (* a response whose "Parameter" carries "Value" *)
| SsmNoParameter                 (* a response without a "Parameter" *)
| SsmClientError                 (* botocore's ClientError: not found, access denied, ... *)
| SsmOtherError.                 (* any other exception *)

(** What [os.path.exists], [open] and [tomlkit.parse] give for a path. *)
Inductive file_read :=
| NoSuchFile
| Unreadable
| Parsed (settings_data : pyitems).

Record World := {
  environ : gmap string string;              (* os.environ *)
  _boto_available : bool;                    (* the module flag set at import *)
  get_parameter : string -> ssm_outcome;     (* the SSM client *)
  read_toml : string -> file_read;           (* the file system and the TOML reader *)
  float_of_str : string -> option pyfloat;   (* float(s); None is ValueError *)
  unicode_upper : string -> string;          (* s.upper() when s is not ASCII *)
  unicode_lower : string -> string;          (* s.lower() when s is not ASCII *)
  unicode_int : string -> option Z;          (* int(s) when s is not ASCII *)
  int_max_str_digits : nat;                  (* sys.get_int_max_str_digits(), 0: no limit *)
  object_attr : string -> bool;
    (* names normal lookup finds beyond the body of the class: those of
       object and those the class statement adds *)
  box_class_attr : string -> bool;           (* names found on the Box class itself *)
  box_safe_key : list string -> string -> option string
    (* Box's conversion_box: the stored key a name is the attribute-safe form of *)
}.

(** [s.upper()], [s.lower()] and [int(s)]. *)
Definition str_upper (w : World) (s : string) : string :=
  if PyStr.is_ascii s then PyStr.ascii_upper s else unicode_upper w s.

Definition str_lower (w : World) (s : string) : string :=
  if PyStr.is_ascii s then PyStr.ascii_lower s else unicode_lower w s.

Definition int_of_str (w : World) (s : string) : option Z :=
  if PyStr.is_ascii s then PyStr.ascii_int (int_max_str_digits w) s else unicode_int w s.

(** The instance ([_store], [env]) together with the records sent to the
    module logger. The [_ssm] handle is [get_parameter] of the world. *)
Record Settings := {
  _store : pyitems;
  env : string;
  log_records : list log_record
}.

Definition with_store (self : Settings) (s : pyitems) : Settings :=
  {| _store := s; env := env self; log_records := log_records self |}.

Definition with_log (self : Settings) (r : log_record) : Settings :=
  {| _store := _store self; env := env self; log_records := log_records self ++ [r] |}.

(** ** Computations that mutate the instance and may raise *)

Inductive outcome (A : Type) :=
| Return (a : A)
| Raise (e : exn).
Arguments Return {A} a.
Arguments Raise {A} e.

Definition Py (A : Type) : Type := Settings -> Settings * outcome A.

#[global] Instance Py_ret : MRet Py := fun A a self => (self, Return a).

#[global] Instance Py_bind : MBind Py := fun A B f m self =>
  match m self with
  | (self', Return a) => f a self'
  | (self', Raise e) => (self', Raise e)
  end.

#[global] Instance Py_throw : MThrow exn Py := fun A e self => (self, Raise e).

Definition get_self : Py Settings := fun self => (self, Return self).
Definition set_store (s : pyitems) : Py unit := fun self => (with_store self s, Return tt).
Definition logger (r : log_record) : Py unit := fun self => (with_log self r, Return tt).

(** [for x in l: body(x)] *)
Fixpoint for_each {A : Type} (l : list A) (body : A -> Py unit) : Py unit :=
  match l with
  | [] => mret tt
  | x :: l' => body x ;; for_each l' body
  end.

(** The store a computation leaves, and what it returned or raised. *)
Definition store_after {A} (m : Py A) (self : Settings) : pyitems := _store (fst (m self)).
Definition result_of {A} (m : Py A) (self : Settings) : outcome A := snd (m self).

(** ** The Settings class *)

Definition INTERNAL_ATTRS : list string := ["_store"; "_ssm"; "env"].

(** [TOML_TO_BUILTIN_MAP[type(value)](value)] when [type(value)] is one of
    the four wrappers, and [value] otherwise. *)
Definition to_builtin (value : pyobj) : pyobj :=
  match value with
  | TomlString s => PyStr s
  | TomlInteger z => PyInt z
  | TomlFloat f => PyFloat f
  | TomlBool b => PyBool b
  | _ => value
  end.

(** Truth value of the [parent] argument: [None] and the empty string are
    false. *)
Definition truthy (parent : option string) : bool :=
  match parent with
  | Some p => negb (String.eqb p "")
  | None => false
  end.

(** [self._store[parent][name] = value]: item assignment on what the slot
    holds; only a mapping supports it. *)
Definition assign_in_parent (p name : string) (value : pyobj) : Py unit :=
  self ← get_self;
  match dict_get (_store self) p with
  | Some (PyDict kind items) =>
      set_store (dict_set (_store self) p (PyDict kind (dict_set items name value)))
  | Some _ => mthrow TypeError
  | None => mthrow KeyError
  end.

Definition set_attr (name : string) (value : pyobj) (parent : option string) : Py unit :=
  let value := to_builtin value in
  let value := if is_dict value then to_box value else value in
  match parent with
  | Some p =>
      if truthy parent then
        self ← get_self;
        (if negb (dict_contains (_store self) p)
         then set_store (dict_set (_store self) p (PyDict BoxDict []))
         else mret tt) ;;
        assign_in_parent p name value
      else
        self ← get_self; set_store (dict_set (_store self) name value)
  | None =>
      self ← get_self; set_store (dict_set (_store self) name value)
  end.

Definition clear : Py unit := set_store [].

(** [os.getenv(name)] *)
Definition getenv (w : World) (name : string) : option string := environ w !! name.

(** [name in os.environ] *)
Definition in_environ (w : World) (name : string) : bool :=
  match environ w !! name with Some _ => true | None => false end.

(** [os.getenv(...)] as the object it returns. *)
Definition env_obj (o : option string) : pyobj :=
  match o with Some s => PyStr s | None => PyNone end.

(** [f"{parent.upper()}_{name.upper()}"] *)
Definition nested_var (w : World) (p name : string) : string :=
  str_upper w p ++ "_" ++ str_upper w name.

Definition _set_from_env_var_interpolation (w : World)
    (name : string) (value : pyobj) (parent : option string) : Py unit :=
  match as_str value with
  | None => mthrow TypeError
  | Some s =>
      match PyStr.first_interpolation s with
      | None => mthrow IndexError
      | Some var_name =>
          if in_environ w var_name
          then set_attr name (env_obj (getenv w var_name)) parent
          else set_attr name PyNone parent
      end
  end.

(** The body of the [try] in [_set_from_parent_env_var]: the cast of the
    variable's value to the type of the raw value. *)
Inductive cast_result :=
| Cast (v : pyobj)
| CastValueError        (* ValueError, caught by the method *)
| CastRaises (e : exn). (* anything else, not caught *)

Definition cast_int (w : World) (attr : option string) : cast_result :=
  match attr with
  | Some s => match int_of_str w s with Some z => Cast (PyInt z) | None => CastValueError end
  | None => CastRaises TypeError
  end.

Definition cast_float (w : World) (attr : option string) : cast_result :=
  match attr with
  | Some s => match float_of_str w s with Some f => Cast (PyFloat f) | None => CastValueError end
  | None => CastRaises TypeError
  end.

Definition cast_str (attr : option string) : cast_result :=
  match attr with
  | Some s => Cast (PyStr s)
  | None => Cast (PyStr "None")
  end.

Definition cast_like (w : World) (value : pyobj) (attr : option string) : cast_result :=
  match value with
  (* type(value) in TOML_TO_BUILTIN_MAP *)
  | TomlString _ => cast_str attr
  | TomlInteger _ => cast_int w attr
  | TomlFloat _ => cast_float w attr
  | TomlBool _ =>
      Cast (PyBool (match attr with Some s => negb (String.eqb s "") | None => false end))
  (* type(value) == bool *)
  | PyBool _ =>
      match attr with
      | Some s => Cast (PyBool (String.eqb (str_lower w s) "true"))
      | None => CastRaises AttributeError
      end
  (* type(value)(attr) *)
  | PyStr _ => cast_str attr
  | PyInt _ => cast_int w attr
  | PyFloat _ => cast_float w attr
  | PyNone => CastRaises TypeError        (* NoneType takes no arguments *)
  (* dict(""): the empty dict; dict of any other string: ValueError *)
  | PyDict PlainDict _ =>
      match attr with
      | Some s => if String.eqb s "" then Cast (PyDict PlainDict []) else CastValueError
      | None => CastRaises TypeError
      end
  (* Table(attr): arguments missing *)
  | PyDict TomlTable _ => CastRaises TypeError
  (* Box(attr): BoxValueError, a ValueError *)
  | PyDict BoxDict _ => CastValueError
  end.

Definition _set_from_parent_env_var (w : World)
    (name : string) (value : pyobj) (parent : option string) : Py unit :=
  match parent with
  | None => mthrow AttributeError  (* None.upper() *)
  | Some p =>
      let attr := getenv w (nested_var w p name) in
      match cast_like w value attr with
      | Cast v => set_attr name v parent
      | CastValueError =>
          logger (LogInfoCastFailed parent name attr) ;;
          set_attr name (env_obj attr) parent
      | CastRaises e => mthrow e
      end
  end.

Definition _set_from_ssm (w : World)
    (name : string) (value : pyobj) (parent : option string) : Py unit :=
  if negb (_boto_available w) then mthrow ImportError
  else
    match as_str value with
    | None => mthrow AttributeError  (* value.replace *)
    | Some s =>
        let parameter := PyStr.replace "ssm:" "" s in
        match get_parameter w parameter with
        | SsmParameter v => set_attr name (PyStr v) parent
        | SsmNoParameter => mret tt
        | SsmClientError => logger (LogErrorClientError parameter)
        | SsmOtherError => mthrow ProviderError
        end
    end.

(** The first two tests of [_set_value_from_config]. *)
Definition direct_override (w : World) (name : string) (parent : option string) : bool :=
  in_environ w (str_upper w name) && negb (truthy parent).

Definition nested_override (w : World) (name : string) (parent : option string) : bool :=
  match parent with
  | Some p => truthy parent && in_environ w (nested_var w p name)
  | None => false
  end.

Definition is_interpolation (value : pyobj) : bool :=
  match as_str value with
  | Some s => PyStr.startswith "${" s && PyStr.endswith "}" s
  | None => false
  end.

Definition is_ssm_reference (value : pyobj) : bool :=
  match as_str value with
  | Some s => PyStr.startswith "ssm:" s
  | None => false
  end.

Fixpoint _set_value_from_config (w : World)
    (name : string) (value : pyobj) (parent : option string) {struct value} : Py unit :=
  if direct_override w name parent then
    set_attr name (env_obj (getenv w (str_upper w name))) parent
  else if nested_override w name parent then
    _set_from_parent_env_var w name value parent
  else
    match value with
    | PyDict _ items =>
        (fix each (l : pyitems) : Py unit :=
           match l with
           | [] => mret tt
           | (k, v) :: l' => _set_value_from_config w k v (Some name) ;; each l'
           end) items
    | _ =>
        if is_interpolation value then _set_from_env_var_interpolation w name value parent
        else if is_ssm_reference value then _set_from_ssm w name value parent
        else set_attr name value parent
    end.

(** [table.startswith(self.env) or table == "default"] *)
Definition applies (self_env table : string) : bool :=
  PyStr.startswith self_env table || String.eqb table "default".

(** [for k, v in items.items(): self._set_value_from_config(k, v)]; a
    top-level entry that is not a table has no [items]. *)
Definition apply_section (w : World) (section : pyobj) : Py unit :=
  match section with
  | PyDict _ entries =>
      for_each entries (fun kv => _set_value_from_config w (fst kv) (snd kv) None)
  | _ => mthrow AttributeError
  end.

(** The body of the loop of [load], for one [(table, items)] of the file. *)
Definition load_step (w : World) (ti : string * pyobj) : Py unit :=
  self ← get_self;
  if applies (env self) (fst ti) then apply_section w (snd ti) else mret tt.

Definition load (w : World) (config_filepath : string) : Py unit :=
  match read_toml w config_filepath with
  | NoSuchFile => mthrow OSError
  | Unreadable => clear ;; mthrow ReadError
  | Parsed settings_data =>
      clear ;;
      if negb (dict_contains settings_data "default") then mthrow MissingDefaultSection
      else for_each settings_data (load_step w)
  end.

(** What an attribute read can yield besides a stored object. *)
Inductive attribute :=
| Obj (v : pyobj)
| SsmClient                   (* the boto3 client held in [_ssm] *)
| BoxMember (name : string)   (* a method or class attribute of Box *)
| ClassMember (name : string). (* a method or class attribute of Settings *)

(** [getattr(self._store, name)] on a [Box] with its default options:
    names of the class win, then keys, then attribute-safe forms of keys;
    anything else raises [BoxKeyError], which is an [AttributeError]. *)
Definition box_getattr (w : World) (store : pyitems) (name : string) : outcome attribute :=
  if box_class_attr w name then Return (BoxMember name)
  else
    match dict_get store name with
    | Some v => Return (Obj v)
    | None =>
        match box_safe_key w (dict_keys store) name with
        | Some k =>
            match dict_get store k with
            | Some v => Return (Obj v)
            | None => Raise AttributeError
            end
        | None => Raise AttributeError
        end
    end.

(** [super().__getattribute__(name)] for the three instance fields. *)
Definition internal_attr (w : World) (self : Settings) (name : string) : attribute :=
  if String.eqb name "_store" then Obj (PyDict BoxDict (_store self))
  else if String.eqb name "_ssm" then (if _boto_available w then SsmClient else Obj PyNone)
  else Obj (PyStr (env self)).

Definition __getattr__ (w : World) (name : string) : Py attribute := fun self =>
  if existsb (String.eqb name) INTERNAL_ATTRS
  then (self, Return (internal_attr w self name))
  else (self, box_getattr w (_store self) name).

(** [self._store.get(item)] *)
Definition box_get (store : pyitems) (item : string) : pyobj :=
  match dict_get store item with
  | Some v => v
  | None => PyNone
  end.

Definition __getitem__ (item : string) : Py pyobj := fun self =>
  match box_get (_store self) item with
  | PyNone => (self, Raise KeyError)
  | value => (self, Return value)
  end.

Definition __setitem__ (key : string) (value : pyobj) : Py unit := set_attr key value None.

Definition __contains__ (w : World) (item : string) : Py bool := fun self =>
  (self, Return (dict_contains (_store self) (str_upper w item)
                 || dict_contains (_store self) (str_lower w item))).

(** The names bound in the body of the class. *)
Definition SETTINGS_ATTRS : list string :=
  [ "TOML_TO_BUILTIN_MAP"; "INTERNAL_ATTRS"; "__init__"; "load"; "clear";
    "_set_value_from_config"; "_set_from_env_var_interpolation";
    "_set_from_parent_env_var"; "_set_from_ssm"; "set_attr"; "__dir__";
    "__getattr__"; "__setattr__"; "__contains__"; "__getitem__"; "__setitem__";
    "__iter__"; "items"; "keys"; "values" ].

(** [settings.name]: normal lookup first (the three fields of the
    instance, then the class and [object]); [__getattr__] is the fallback
    for the names that lookup does not find. *)
Definition getattribute (w : World) (name : string) : Py attribute := fun self =>
  if existsb (String.eqb name) INTERNAL_ATTRS
  then (self, Return (internal_attr w self name))
  else if existsb (String.eqb name) SETTINGS_ATTRS || object_attr w name
  then (self, Return (ClassMember name))
  else __getattr__ w name self.

(** [hasattr(settings, name)]: the attribute read does not raise
    [AttributeError]. *)
Definition hasattr (w : World) (name : string) (self : Settings) : bool :=
  match result_of (getattribute w name) self with
  | Raise AttributeError => false
  | _ => true
  end.

(** [Settings()] without a file, for a given environment tag. *)
Definition new_settings (env_tag : string) : Settings :=
  {| _store := []; env := env_tag; log_records := [] |}.

(** [store[parent][child]] when [store[parent]] is a mapping. *)
Definition nested_get (store : pyitems) (parent child : string) : option pyobj :=
  match dict_get store parent with
  | Some (PyDict _ items) => dict_get items child
  | _ => None
  end.

(** The slot of [parent] can take a child: it is free, or holds a mapping. *)
Definition parent_slot_free_or_mapping (store : pyitems) (parent : string) : Prop :=
  match dict_get store parent with
  | None => True
  | Some v => is_dict v = true
  end.

(** What [set_attr] writes for a value: wrappers reduced to builtins, a
    mapping turned into a [Box]. *)
Definition stored (value : pyobj) : pyobj :=
  if is_dict (to_builtin value) then to_box (to_builtin value) else to_builtin value.

(** Where a key resolved with [parent] is then found, and when its
    slot can take it. *)
Definition lookup_resolved (store : pyitems) (parent : option string) (name : string)
    : option pyobj :=
  match parent with
  | Some p => if truthy parent then nested_get store p name else dict_get store name
  | None => dict_get store name
  end.

Definition slot_writable (store : pyitems) (parent : option string) : Prop :=
  match parent with
  | Some p => if truthy parent then parent_slot_free_or_mapping store p else True
  | None => True
  end.

(** A variable name the pattern [\${(.*?)}] captures whole: it holds no
    closing brace and no line feed. *)
Fixpoint plain_name (s : string) : bool :=
  match s with
  | EmptyString => true
  | String c s' =>
      negb (Ascii.eqb c "}") && negb (Ascii.eqb c PyStr.newline) && plain_name s'
  end.

(** The raw string [${var}]. *)
Definition reference (var : string) : string := "${" ++ var ++ "}".

(** No table inside [v] is keyed by the empty string (an empty [parent]
    is false, which would send the children of such a table to the root). *)
Fixpoint tables_named (v : pyobj) : bool :=
  match v with
  | PyDict _ items =>
      forallb (fun kv => let '(k, x) := kv in
                 (negb (is_dict x) || negb (String.eqb k "")) && tables_named x) items
  | _ => true
  end.

(** An entry of a section that does not write the root key [k]: it has
    another name, and its tables are named. *)
Definition leaves_root_key (k : string) (entry : string * pyobj) : bool :=
  negb (String.eqb (fst entry) k)
  && (negb (is_dict (snd entry)) || negb (String.eqb (fst entry) ""))
  && tables_named (snd entry).

Definition section_leaves_root_key (k : string) (section : pyobj) : bool :=
  match section with
  | PyDict _ entries => forallb (leaves_root_key k) entries
  | _ => true
  end.

(** A character that no decimal integer literal holds: neither a digit,
    an underscore or a sign, nor white space. *)
Definition not_in_integers (c : ascii) : bool :=
  negb (PyStr.is_space c)
  && match PyStr.digit c with Some _ => false | None => true end
  && negb (Ascii.eqb c "_") && negb (Ascii.eqb c "+") && negb (Ascii.eqb c "-").

(** A property of the instance that neither the log nor writes by
    [set_attr] with the given name and parent can break. *)
Definition kept_by_writes (P : Settings -> Prop) (name : string) (parent : option string) : Prop :=
  (forall s r, P s -> P (with_log s r)) /\
  (forall s s' value, P s -> set_attr name value parent s = (s', Return tt) -> P s').

(** ** Enumeration and introspection *)

(** [keys()], [values()], [items()] and [__iter__] hand over the views of
    the store, in insertion order. *)
Module View.

Definition keys (self : Settings) : list string := dict_keys (_store self).
Definition values (self : Settings) : list pyobj := map snd (_store self).
Definition items (self : Settings) : pyitems := _store self.
Definition __iter__ (self : Settings) : list string := dict_keys (_store self).

Definition __dir__ (w : World) (self : Settings) : list string :=
  (INTERNAL_ATTRS ++ map (str_lower w) (dict_keys (_store self)))%list.

End View.

(** A stored value in normal form: no tomlkit wrapper, and every mapping a
    [Box] whose values are in normal form. *)
Fixpoint normal (v : pyobj) : bool :=
  match v with
  | TomlString _ | TomlInteger _ | TomlFloat _ | TomlBool _ => false
  | PyDict kind items =>
      match kind with BoxDict => true | _ => false end
      && forallb (fun kv => let '(_, x) := kv in normal x) items
  | _ => true
  end.

(** Every value at the root of a store is in normal form. *)
Definition normal_store (store : pyitems) : bool :=
  forallb (fun kv => let '(_, x) := kv in normal x) store.

(** A raw value that the last branch of [_set_value_from_config] stores as
    it is: not a mapping, not a [${...}] reference, not an [ssm:] one. *)
Definition literal (value : pyobj) : bool :=
  negb (is_dict value) && negb (is_interpolation value) && negb (is_ssm_reference value).

(** [pat in s] *)
Fixpoint occurs (pat s : string) : bool :=
  match s with
  | EmptyString => String.prefix pat EmptyString
  | String _ s' => String.prefix pat s || occurs pat s'
  end.

(** ** Scenarios *)

(** A process with the given environment, secret provider and files. The
    scenarios below are written in ASCII, hold no float and read no
    attribute of [object] or of the Box class; the digit limit is the
    interpreter's default. *)
Definition process (vars : list (string * string)) (boto : bool)
    (ssm : string -> ssm_outcome) (files : string -> file_read) : World :=
  {| environ := list_to_map vars;
     _boto_available := boto;
     get_parameter := ssm;
     read_toml := files;
     float_of_str := fun _ => None;
     unicode_upper := fun s => s;
     unicode_lower := fun s => s;
     unicode_int := fun _ => None;
     int_max_str_digits := 4300;
     object_attr := fun name =>
       existsb (String.eqb name) ["__class__"; "__dict__"; "__doc__"; "__module__"];
     box_class_attr := fun name =>
       existsb (String.eqb name) ["get"; "keys"; "values"; "items"; "update"; "pop"; "to_dict"];
     box_safe_key := fun _ _ => None |}.

Definition no_ssm : string -> ssm_outcome := fun _ => SsmClientError.

Definition one_file (path : string) (settings_data : pyitems) : string -> file_read :=
  fun p => if String.eqb p path then Parsed settings_data else NoSuchFile.

(** [[default] project_name = "configur"] and [[dev] project_name =
    "configur-dev"], in the two possible orders. *)
Definition default_section : string * pyobj :=
  ("default", PyDict TomlTable [("project_name", TomlString "configur")]).
Definition dev_section : string * pyobj :=
  ("dev", PyDict TomlTable [("project_name", TomlString "configur-dev")]).

Definition default_first : pyitems := [default_section; dev_section].


(** [[default] db = "sqlite"] followed by [[dev.db] host = "${FOO}"]. *)
Definition scalar_then_table : pyitems :=
  [ ("default", PyDict TomlTable [("db", TomlString "sqlite")]);
    ("dev", PyDict TomlTable [("db", PyDict TomlTable [("host", TomlString "${FOO}")])]) ].






(** The file of the tests. *)
Definition example_toml : string -> file_read := one_file "example.toml" default_first.

(** [[default]] (empty) followed by [[local.a.b] x = 1]. *)
Definition two_levels : pyitems :=
  [ ("default", PyDict TomlTable []);
    ("local", PyDict TomlTable
       [("a", PyDict TomlTable [("b", PyDict TomlTable [("x", TomlInteger 1)])])]) ].

(** [[default]] (empty) followed by [[local.snowflake] password = "pw"]. *)
Definition one_level : pyitems :=
  [ ("default", PyDict TomlTable []);
    ("local", PyDict TomlTable
       [("snowflake", PyDict TomlTable [("password", TomlString "pw")])]) ].

(** * Properties *)

(** ** Dictionaries *)

Lemma dict_get_set_eq {A} (d : list (string * A)) k v :
  dict_get (dict_set d k v) k = Some v.
Proof.
  induction d as [|[k' v'] d IH]; simpl.
  - now rewrite String.eqb_refl.
  - destruct (String.eqb k' k) eqn:E; simpl.
    + now rewrite String.eqb_refl.
    + now rewrite E.
Qed.

Lemma dict_get_set_ne {A} (d : list (string * A)) k k' v :
  k <> k' -> dict_get (dict_set d k v) k' = dict_get d k'.
Proof.
  intros Hne. induction d as [|[k0 v0] d IH]; simpl.
  - destruct (String.eqb k k') eqn:E; [apply String.eqb_eq in E; contradiction | reflexivity].
  - destruct (String.eqb k0 k) eqn:E; simpl.
    + apply String.eqb_eq in E. subst k0.
      destruct (String.eqb k k') eqn:E'; [apply String.eqb_eq in E'; contradiction | reflexivity].
    + destruct (String.eqb k0 k'); [reflexivity | exact IH].
Qed.

Lemma dict_contains_get {A} (d : list (string * A)) k :
  dict_contains d k = true <-> exists v, dict_get d k = Some v.
Proof.
  unfold dict_contains. destruct (dict_get d k); split; intros H; eauto.
  - discriminate.
  - destruct H as [? H]. discriminate.
Qed.

(** ** Unfolding the computations *)

Ltac py_unfold :=
  unfold mbind, Py_bind, mret, Py_ret, mthrow, Py_throw,
         get_self, set_store, logger, clear in *.

Lemma bind_run {A B} (m : Py A) (f : A -> Py B) self :
  (m ≫= f) self =
  match m self with
  | (self', Return a) => f a self'
  | (self', Raise e) => (self', Raise e)
  end.
Proof. reflexivity. Qed.

Lemma for_each_app {A} (l1 l2 : list A) (body : A -> Py unit) self :
  for_each (l1 ++ l2) body self = (for_each l1 body ;; for_each l2 body) self.
Proof.
  revert self. induction l1 as [|x l1 IH]; intros self; simpl.
  - reflexivity.
  - rewrite !bind_run. destruct (body x self) as [self' [[]|e]]; [|reflexivity].
    rewrite IH. reflexivity.
Qed.

(** Writing a root key: always succeeds and the key then holds the value
    (a mapping as a [Box]). *)
Lemma set_attr_root name value self :
  set_attr name value None self =
  (with_store self (dict_set (_store self) name (stored value)), Return tt).
Proof. reflexivity. Qed.

Lemma set_attr_falsy name value parent self :
  truthy parent = false ->
  set_attr name value parent self = set_attr name value None self.
Proof.
  destruct parent as [p|]; [|reflexivity]. unfold set_attr. intros ->. reflexivity.
Qed.

(** Writing under a parent: the slot is created when missing, and must
    hold a mapping. *)
Lemma set_attr_truthy name value p self :
  p <> "" ->
  set_attr name value (Some p) self =
  match dict_get (_store self) p with
  | None =>
      (with_store self
         (dict_set (dict_set (_store self) p (PyDict BoxDict [])) p
            (PyDict BoxDict [(name, stored value)])), Return tt)
  | Some (PyDict kind items) =>
      (with_store self
         (dict_set (_store self) p (PyDict kind (dict_set items name (stored value)))),
       Return tt)
  | Some _ => (self, Raise TypeError)
  end.
Proof.
  intros Hp. unfold set_attr, truthy.
  destruct (String.eqb p "") eqn:E; [apply String.eqb_eq in E; contradiction|].
  simpl negb. cbv iota. fold (stored value).
  unfold assign_in_parent, dict_contains. py_unfold.
  destruct (dict_get (_store self) p) as [v|] eqn:G;
    cbv beta iota zeta delta [negb].
  - do 2 rewrite G. destruct v; reflexivity.
  - rewrite G. simpl. rewrite dict_get_set_eq. reflexivity.
Qed.

Lemma set_attr_nested name value p self :
  p <> "" ->
  parent_slot_free_or_mapping (_store self) p ->
  result_of (set_attr name value (Some p)) self = Return tt /\
  nested_get (store_after (set_attr name value (Some p)) self) p name = Some (stored value) /\
  log_records (fst (set_attr name value (Some p) self)) = log_records self.
Proof.
  intros Hp Hslot. unfold result_of, store_after. rewrite set_attr_truthy by assumption.
  unfold parent_slot_free_or_mapping in Hslot.
  destruct (dict_get (_store self) p) as [v|] eqn:G.
  - destruct v; try discriminate. simpl.
    unfold nested_get. rewrite !dict_get_set_eq. auto.
  - simpl. unfold nested_get. rewrite dict_get_set_eq. simpl.
    rewrite String.eqb_refl. auto.
Qed.

(** The recursive method, one step unfolded; the loop over a table is
    [for_each]. *)
Lemma _set_value_from_config_unfold w name value parent self :
  _set_value_from_config w name value parent self =
  (if direct_override w name parent then
     set_attr name (env_obj (getenv w (str_upper w name))) parent
   else if nested_override w name parent then
     _set_from_parent_env_var w name value parent
   else
     match value with
     | PyDict _ items =>
         for_each items (fun kv => _set_value_from_config w (fst kv) (snd kv) (Some name))
     | _ =>
         if is_interpolation value then _set_from_env_var_interpolation w name value parent
         else if is_ssm_reference value then _set_from_ssm w name value parent
         else set_attr name value parent
     end) self.
Proof.
  destruct value; try reflexivity.
  simpl. destruct (direct_override w name parent); [reflexivity|].
  destruct (nested_override w name parent); [reflexivity|].
  revert self. induction items as [|[k v] l IH]; intros self; [reflexivity|].
  simpl for_each. rewrite !bind_run.
  destruct (_set_value_from_config w k v (Some name) self) as [self' [[]|e]]; [|reflexivity].
  apply IH.
Qed.

Lemma in_environ_getenv w name s :
  environ w !! name = Some s -> in_environ w name = true /\ getenv w name = Some s.
Proof. intros H. unfold in_environ, getenv. rewrite H. auto. Qed.

(** ** Direct environment override (root keys) *)

(** C2. For a root key (no parent) and any raw value, a process
    environment variable named after the upper-cased key makes the
    resolution store exactly that variable's string: the call returns, the
    key holds the string (no cast to the raw value's type), and reading the
    key by subscript gives the string back. *)
Theorem direct_override_stores_the_variable w name value S self :
  environ w !! str_upper w name = Some S ->
  let m := _set_value_from_config w name value None in
  result_of m self = Return tt /\
  dict_get (store_after m self) name = Some (PyStr S) /\
  result_of (__getitem__ name) (fst (m self)) = Return (PyStr S).
Proof.
  intros Henv m. subst m. unfold result_of, store_after.
  rewrite _set_value_from_config_unfold.
  destruct (in_environ_getenv _ _ _ Henv) as [Hin Hget].
  unfold direct_override, truthy. rewrite Hin, Hget.
  cbv beta iota delta [andb negb env_obj]. rewrite set_attr_root.
  unfold __getitem__, box_get. simpl. rewrite dict_get_set_eq. auto.
Qed.

Lemma direct_override_stores_the_variable_witness :
  let w := process [("PROJECT_NAME", "abc")] false no_ssm (fun _ => NoSuchFile) in
  let value := PyDict TomlTable [("a", TomlInteger 1)] in
  let m := _set_value_from_config w "project_name" value None in
  result_of m (new_settings "local") = Return tt /\
  dict_get (store_after m (new_settings "local")) "project_name" = Some (PyStr "abc") /\
  result_of (__getitem__ "project_name") (fst (m (new_settings "local"))) = Return (PyStr "abc").
Proof.
  exact (direct_override_stores_the_variable
           (process [("PROJECT_NAME", "abc")] false no_ssm (fun _ => NoSuchFile))
           "project_name" (PyDict TomlTable [("a", TomlInteger 1)]) "abc"
           (new_settings "local") eq_refl).
Defined.

(** ** Reading the store *)

(** C10. A key that is present at the root of the store with the null
    marker as its value is a member of the store, and yet reading it by
    subscript raises the key-not-found error: [__getitem__] tests the value
    it looked up against [None], not the membership of the key. *)
Theorem null_value_reads_as_missing key self :
  dict_get (_store self) key = Some PyNone ->
  dict_contains (_store self) key = true /\
  __getitem__ key self = (self, Raise KeyError).
Proof.
  intros H. unfold dict_contains, __getitem__, box_get. rewrite H. auto.
Qed.

Lemma null_value_reads_as_missing_witness :
  let w := process [] false no_ssm (fun _ => NoSuchFile) in
  let self := fst (_set_value_from_config w "env_var" (PyStr "${SOME_ENV_VAR}") None
                     (new_settings "local")) in
  dict_contains (_store self) "env_var" = true /\
  __getitem__ "env_var" self = (self, Raise KeyError).
Proof.
  exact (null_value_reads_as_missing "env_var"
           (fst (_set_value_from_config (process [] false no_ssm (fun _ => NoSuchFile))
                   "env_var" (PyStr "${SOME_ENV_VAR}") None (new_settings "local")))
           eq_refl).
Defined.


Lemma not_listed key l :
  ~ In key l -> existsb (String.eqb key) l = false.
Proof.
  intros H. destruct (existsb (String.eqb key) l) eqn:E; [|reflexivity].
  apply existsb_exists in E. destruct E as [x [Hx Heq]].
  apply String.eqb_eq in Heq. subst x. contradiction.
Qed.



(** A name of the class is found by attribute lookup whatever the store
    holds: [__getattr__] is not consulted. *)
Example hasattr_of_a_method :
  let w := process [] false no_ssm (fun _ => NoSuchFile) in
  hasattr w "load" (new_settings "local") = true /\
  result_of (getattribute w "load") (new_settings "local") = Return (ClassMember "load").
Proof. split; reflexivity. Qed.

(** A stored null is what the attribute read returns as null. *)
Lemma stored_null_attribute w key self :
  dict_get (_store self) key = Some PyNone ->
  ~ In key INTERNAL_ATTRS ->
  box_class_attr w key = false ->
  __getattr__ w key self = (self, Return (Obj PyNone)).
Proof.
  intros Hget Hint Hcls.
  unfold __getattr__.
  destruct (existsb (String.eqb key) INTERNAL_ATTRS) eqn:E.
  - apply existsb_exists in E. destruct E as [x [Hx Heq]].
    apply String.eqb_eq in Heq. subst x. contradiction.
  - unfold box_getattr. now rewrite Hcls, Hget.
Qed.

(** ** Writing a resolved value *)

Lemma set_attr_writes name value parent self :
  slot_writable (_store self) parent ->
  result_of (set_attr name value parent) self = Return tt /\
  lookup_resolved (store_after (set_attr name value parent) self) parent name
    = Some (stored value) /\
  log_records (fst (set_attr name value parent self)) = log_records self.
Proof.
  intros Hslot. unfold slot_writable, lookup_resolved in *.
  destruct parent as [p|].
  - destruct (truthy (Some p)) eqn:T.
    + apply set_attr_nested; [|assumption].
      intros ->. discriminate.
    + unfold result_of, store_after. rewrite !set_attr_falsy by assumption.
      rewrite set_attr_root. simpl. rewrite dict_get_set_eq. auto.
  - unfold result_of, store_after. rewrite set_attr_root. simpl.
    rewrite dict_get_set_eq. auto.
Qed.

(** ** String facts *)

Lemma prefix_cons a p b s :
  String.prefix (String a p) (String b s) = Ascii.eqb a b && String.prefix p s.
Proof.
  change (String.prefix (String a p) (String b s))
    with (if Ascii.ascii_dec a b then String.prefix p s else false).
  destruct (Ascii.ascii_dec a b) as [->|Hne].
  - now rewrite Ascii.eqb_refl.
  - destruct (Ascii.eqb a b) eqn:E; [apply Ascii.eqb_eq in E; contradiction | reflexivity].
Qed.

Lemma prefix_empty s : String.prefix "" s = true.
Proof. destruct s; reflexivity. Qed.

Lemma lazy_group_plain var rest :
  plain_name var = true ->
  PyStr.lazy_group (var ++ String "}" rest) = Some var.
Proof.
  induction var as [|c var IH]; simpl; intros H.
  - reflexivity.
  - apply andb_prop in H. destruct H as [H H3]. apply andb_prop in H. destruct H as [H1 H2].
    apply negb_true_iff in H1, H2. rewrite H1, H2, IH by assumption. reflexivity.
Qed.

Lemma first_interpolation_reference var :
  plain_name var = true ->
  PyStr.first_interpolation (reference var) = Some var.
Proof.
  intros H. unfold reference. simpl. now rewrite lazy_group_plain.
Qed.

Lemma length_append_one (a : string) c :
  String.length (a ++ String c EmptyString) = S (String.length a).
Proof. induction a; simpl; congruence. Qed.

Lemma substring_last (a : string) c :
  String.substring (String.length a) 1 (a ++ String c EmptyString) = String c EmptyString.
Proof. induction a; simpl; [reflexivity | assumption]. Qed.

Lemma endswith_brace (a : string) :
  PyStr.endswith "}" (a ++ "}") = true.
Proof.
  unfold PyStr.endswith. rewrite length_append_one. simpl String.length.
  replace (S (String.length a) - 1)%nat with (String.length a) by lia.
  rewrite substring_last. reflexivity.
Qed.

Lemma is_interpolation_reference value var :
  as_str value = Some (reference var) -> is_interpolation value = true.
Proof.
  intros H. unfold is_interpolation. rewrite H. unfold reference.
  change ("${" ++ var ++ "}") with (String "$" (String "{" (var ++ "}"))).
  replace (String "$" (String "{" (var ++ "}"))) with ((String "$" (String "{" var)) ++ "}")
    by reflexivity.
  rewrite endswith_brace. unfold PyStr.startswith. simpl String.append.
  now rewrite !prefix_cons, prefix_empty.
Qed.

Lemma as_str_not_dict value s : as_str value = Some s -> is_dict value = false.
Proof. destruct value; simpl; congruence. Qed.

Lemma ssm_prefix_not_interpolation s :
  PyStr.startswith "ssm:" s = true -> PyStr.startswith "${" s = false.
Proof.
  unfold PyStr.startswith. destruct s as [|c s]; [discriminate|].
  rewrite !prefix_cons. intros H. apply andb_prop in H. destruct H as [H _].
  apply Ascii.eqb_eq in H. subst c. reflexivity.
Qed.

Lemma ssm_reference_not_interpolation value :
  is_ssm_reference value = true -> is_interpolation value = false.
Proof.
  unfold is_ssm_reference, is_interpolation. destruct (as_str value); [|discriminate].
  intros H. now rewrite (ssm_prefix_not_interpolation _ H).
Qed.

(** A string value is resolved by the three last branches. *)
Lemma _set_value_from_config_scalar w name value parent self :
  direct_override w name parent = false ->
  nested_override w name parent = false ->
  is_dict value = false ->
  _set_value_from_config w name value parent self =
  (if is_interpolation value then _set_from_env_var_interpolation w name value parent
   else if is_ssm_reference value then _set_from_ssm w name value parent
   else set_attr name value parent) self.
Proof.
  intros Hd Hn Hv. rewrite _set_value_from_config_unfold, Hd, Hn.
  destruct value; try reflexivity. discriminate.
Qed.

(** ** Fatal errors of [load] *)

(** C5, as stated, fails for the missing path: the existence test comes
    before [clear], so the failed load leaves the keys of the previous load
    readable. *)
Lemma failed_load_of_missing_path_keeps_store :
  let w := process [] false no_ssm (one_file "example.toml" default_first) in
  let loaded := fst (load w "example.toml" (new_settings "local")) in
  result_of (load w "example.toml") (new_settings "local") = Return tt /\
  result_of (load w "fake_file.toml") loaded = Raise OSError /\
  store_after (load w "fake_file.toml") loaded = [("project_name", PyStr "configur")] /\
  result_of (__getitem__ "project_name") (fst (load w "fake_file.toml" loaded))
    = Return (PyStr "configur").
Proof. repeat split; reflexivity. Qed.

(** C5, amended. A path that does not exist makes [load] raise the
    not-found error and leaves the instance as it was (the store is not
    cleared); a parsed file without a section named [default] makes it
    raise the missing-default-section error and leaves the store empty. *)
Theorem load_fatal_errors w path self :
  (read_toml w path = NoSuchFile ->
   load w path self = (self, Raise OSError)) /\
  (forall settings_data,
     read_toml w path = Parsed settings_data ->
     dict_contains settings_data "default" = false ->
     load w path self = (with_store self [], Raise MissingDefaultSection)).
Proof.
  split.
  - intros H. unfold load. rewrite H. reflexivity.
  - intros d H Hd. unfold load. rewrite H. rewrite bind_run. unfold clear, set_store.
    rewrite Hd. reflexivity.
Qed.

Lemma load_fatal_errors_witness :
  let w := process [] false no_ssm (one_file "no_default.toml" [dev_section]) in
  let loaded := fst (set_attr "test" (PyInt 123) None (new_settings "dev")) in
  load w "fake_file.toml" loaded = (loaded, Raise OSError) /\
  load w "no_default.toml" loaded = (with_store loaded [], Raise MissingDefaultSection).
Proof.
  pose proof (load_fatal_errors
                (process [] false no_ssm (one_file "no_default.toml" [dev_section]))
                "fake_file.toml"
                (fst (set_attr "test" (PyInt 123) None (new_settings "dev")))) as [H1 _].
  pose proof (load_fatal_errors
                (process [] false no_ssm (one_file "no_default.toml" [dev_section]))
                "no_default.toml"
                (fst (set_attr "test" (PyInt 123) None (new_settings "dev")))) as [_ H2].
  split.
  - exact (H1 eq_refl).
  - exact (H2 [dev_section] eq_refl eq_refl).
Defined.

(** ** Interpolation of environment variables *)

Lemma _set_from_env_var_interpolation_reference w name value var parent self :
  as_str value = Some (reference var) ->
  plain_name var = true ->
  _set_from_env_var_interpolation w name value parent self =
  set_attr name (env_obj (environ w !! var)) parent self.
Proof.
  intros Hs Hv. unfold _set_from_env_var_interpolation.
  rewrite Hs, first_interpolation_reference by assumption.
  unfold in_environ, getenv. destruct (environ w !! var); reflexivity.
Qed.

(** C6, as stated, fails: a nested key whose raw value is [${FOO}] fails
    the load when an earlier table left a value that is not a table under
    the name of its parent. Here [default] sets [db] to a string and
    [dev.db] holds [host = "${FOO}"]: the write of [db.host] raises
    [TypeError], which leaves [load]. *)
Lemma interpolation_under_scalar_fails_the_load :
  let w := process [] false no_ssm (one_file "example.toml" scalar_then_table) in
  load w "example.toml" (new_settings "dev")
  = ({| _store := [("db", PyStr "sqlite")]; env := "dev"; log_records := [] |},
     Raise TypeError).
Proof. reflexivity. Qed.

(** C6, amended. A key whose raw value is the string [${FOO}] (and which
    no environment override of rules 1 and 2 claims first) is resolved from
    the process environment whenever it is a root key, or a nested key
    whose parent's slot is free or holds a table: the call returns, and the
    key then holds the string value of [FOO] when [FOO] is set and the null
    marker when it is not; nothing is logged. The literal is stored only
    if it is the value of [FOO] itself. *)
Theorem interpolation_resolves_from_environment w name value var parent self :
  as_str value = Some (reference var) ->
  plain_name var = true ->
  direct_override w name parent = false ->
  nested_override w name parent = false ->
  slot_writable (_store self) parent ->
  let m := _set_value_from_config w name value parent in
  result_of m self = Return tt /\
  lookup_resolved (store_after m self) parent name =
    Some (match environ w !! var with Some s => PyStr s | None => PyNone end) /\
  log_records (fst (m self)) = log_records self.
Proof.
  intros Hs Hv Hd Hn Hslot m. subst m. unfold result_of, store_after.
  rewrite _set_value_from_config_scalar by eauto using as_str_not_dict.
  rewrite (is_interpolation_reference _ _ Hs).
  rewrite (_set_from_env_var_interpolation_reference w name value var) by assumption.
  destruct (set_attr_writes name (env_obj (environ w !! var)) parent self Hslot)
    as (H1 & H2 & H3).
  unfold result_of, store_after in *. rewrite H1, H2, H3.
  repeat split. destruct (environ w !! var); reflexivity.
Qed.

Lemma interpolation_resolves_from_environment_witness :
  let set := process [("SOME_ENV_VAR", "abc")] false no_ssm (fun _ => NoSuchFile) in
  let unset := process [] false no_ssm (fun _ => NoSuchFile) in
  let self := new_settings "local" in
  dict_get (store_after (_set_value_from_config set "env_var" (PyStr "${SOME_ENV_VAR}") None) self)
    "env_var" = Some (PyStr "abc") /\
  dict_get (store_after (_set_value_from_config unset "env_var" (PyStr "${SOME_ENV_VAR}") None) self)
    "env_var" = Some PyNone.
Proof.
  split.
  - exact (proj1 (proj2 (interpolation_resolves_from_environment
      (process [("SOME_ENV_VAR", "abc")] false no_ssm (fun _ => NoSuchFile))
      "env_var" (PyStr "${SOME_ENV_VAR}") "SOME_ENV_VAR" None (new_settings "local")
      eq_refl eq_refl eq_refl eq_refl I))).
  - exact (proj1 (proj2 (interpolation_resolves_from_environment
      (process [] false no_ssm (fun _ => NoSuchFile))
      "env_var" (PyStr "${SOME_ENV_VAR}") "SOME_ENV_VAR" None (new_settings "local")
      eq_refl eq_refl eq_refl eq_refl I))).
Defined.

(** ** Secret-store references *)

Lemma for_each_raises {A} (l1 l2 : list A) (x : A) (body : A -> Py unit) self self1 self2 e :
  for_each l1 body self = (self1, Return tt) ->
  body x self1 = (self2, Raise e) ->
  for_each (l1 ++ x :: l2) body self = (self2, Raise e).
Proof.
  intros H1 H2. rewrite for_each_app, bind_run, H1. simpl. rewrite bind_run, H2. reflexivity.
Qed.

(** C7. With the secret provider unavailable, resolving a key whose raw
    value is a string that starts with [ssm:] raises the
    provider-unavailable error: [_set_from_ssm] raises it whatever its
    arguments, leaving the store and the log untouched (nothing is logged
    or skipped), and so does [_set_value_from_config] whenever no
    environment override of rules 1 and 2 claims the key first. *)
Theorem ssm_reference_without_provider_raises w name value parent self :
  is_ssm_reference value = true ->
  _boto_available w = false ->
  _set_from_ssm w name value parent self = (self, Raise ImportError) /\
  (direct_override w name parent = false ->
   nested_override w name parent = false ->
   _set_value_from_config w name value parent self = (self, Raise ImportError)).
Proof.
  intros Hs Hb.
  assert (H : _set_from_ssm w name value parent self = (self, Raise ImportError)).
  { unfold _set_from_ssm. rewrite Hb. reflexivity. }
  split; [exact H|]. intros Hd Hn.
  rewrite _set_value_from_config_scalar; try assumption.
  - now rewrite (ssm_reference_not_interpolation _ Hs), Hs.
  - unfold is_ssm_reference in Hs. destruct (as_str value) eqn:E; [|discriminate].
    eauto using as_str_not_dict.
Qed.

Lemma ssm_reference_without_provider_raises_witness :
  let w := process [] false no_ssm (fun _ => NoSuchFile) in
  let self := new_settings "local" in
  _set_from_ssm w "ssm_var" (PyStr "ssm:/data/test/my_var") None self
    = (self, Raise ImportError) /\
  _set_value_from_config w "ssm_var" (PyStr "ssm:/data/test/my_var") None self
    = (self, Raise ImportError).
Proof.
  pose proof (ssm_reference_without_provider_raises
                (process [] false no_ssm (fun _ => NoSuchFile))
                "ssm_var" (PyStr "ssm:/data/test/my_var") None (new_settings "local")
                eq_refl eq_refl) as [H1 H2].
  split; [exact H1 | exact (H2 eq_refl eq_refl)].
Defined.

(** The error leaves [load] too: the keys resolved before it stay, the
    rest of the file is not applied. *)
Example load_propagates_provider_unavailable :
  let data := [("default", PyDict TomlTable
                  [("a", TomlInteger 1); ("secret", TomlString "ssm:/p"); ("b", TomlInteger 2)])] in
  let w := process [] false no_ssm (one_file "example.toml" data) in
  load w "example.toml" (new_settings "local")
  = ({| _store := [("a", PyInt 1)]; env := "local"; log_records := [] |}, Raise ImportError).
Proof. reflexivity. Qed.




(** The load continues after the failed fetch. *)
Example load_continues_after_client_error :
  let data := [("default", PyDict TomlTable
                  [("a", TomlInteger 1); ("secret", TomlString "ssm:/p"); ("b", TomlInteger 2)])] in
  let w := process [] true no_ssm (one_file "example.toml" data) in
  load w "example.toml" (new_settings "local")
  = ({| _store := [("a", PyInt 1); ("b", PyInt 2)]; env := "local";
        log_records := [LogErrorClientError "/p"] |}, Return tt).
Proof. reflexivity. Qed.

(** A fetched parameter is stored as a string. *)
Example ssm_parameter_is_stored :
  let ssm := fun n => if String.eqb n "/data/test/my_var" then SsmParameter "test" else SsmClientError in
  let w := process [] true ssm (fun _ => NoSuchFile) in
  store_after (_set_value_from_config w "ssm_var" (PyStr "ssm:/data/test/my_var") None)
    (new_settings "local") = [("ssm_var", PyStr "test")].
Proof. reflexivity. Qed.

(** ** Nested environment override *)

Lemma _set_value_from_config_nested_override w name value p self S :
  p <> "" ->
  environ w !! nested_var w p name = Some S ->
  _set_value_from_config w name value (Some p) self =
  match cast_like w value (Some S) with
  | Cast v => set_attr name v (Some p) self
  | CastValueError =>
      (logger (LogInfoCastFailed (Some p) name (Some S)) ;;
       set_attr name (PyStr S) (Some p)) self
  | CastRaises e => (self, Raise e)
  end.
Proof.
  intros Hp Henv. rewrite _set_value_from_config_unfold.
  destruct (in_environ_getenv _ _ _ Henv) as [Hin Hget].
  assert (T : truthy (Some p) = true).
  { unfold truthy. destruct (String.eqb p "") eqn:E; [apply String.eqb_eq in E; contradiction|reflexivity]. }
  unfold direct_override, nested_override. rewrite T, Hin, andb_false_r. simpl andb. cbv iota.
  unfold _set_from_parent_env_var. rewrite Hget.
  destruct (cast_like w value (Some S)); reflexivity.
Qed.








(** ** Nested tables *)

(** A table nested once under the environment section is reachable under
    its own name. *)
Example one_level_is_nested :
  let w := process [] false no_ssm (one_file "example.toml" one_level) in
  load w "example.toml" (new_settings "local")
  = ({| _store := [("snowflake", PyDict BoxDict [("password", PyStr "pw")])];
        env := "local"; log_records := [] |}, Return tt).
Proof. reflexivity. Qed.

(** C9. The code at the failing input: for [[local.a.b] x = 1] the load
    returns, and [x] is stored under [b] at the root of the store; there is
    no key [a], so [x] is not reachable as [a.b.x]. The recursion passes
    only the name of the table it is in as [parent], not the chain. *)
Theorem two_levels_lose_the_outer_table :
  let w := process [] false no_ssm (one_file "example.toml" two_levels) in
  let m := load w "example.toml" in
  result_of m (new_settings "local") = Return tt /\
  store_after m (new_settings "local") = [("b", PyDict BoxDict [("x", PyInt 1)])] /\
  dict_get (store_after m (new_settings "local")) "a" = None /\
  nested_get (store_after m (new_settings "local")) "b" "x" = Some (PyInt 1).
Proof. repeat split; reflexivity. Qed.

(** The writer itself keeps the whole nesting of a mapping it is given. *)
Example set_attr_keeps_nesting :
  store_after (set_attr "a" (PyDict PlainDict [("b", PyDict PlainDict [("x", PyInt 1)])]) None)
    (new_settings "local")
  = [("a", PyDict BoxDict [("b", PyDict BoxDict [("x", PyInt 1)])])].
Proof. reflexivity. Qed.

(** ** Order of the sections *)

Example default_then_environment :
  let w := process [] false no_ssm (one_file "example.toml" default_first) in
  store_after (load w "example.toml") (new_settings "dev") = [("project_name", PyStr "configur-dev")] /\
  store_after (load w "example.toml") (new_settings "local") = [("project_name", PyStr "configur")].
Proof. split; reflexivity. Qed.


(** ** Frame properties of the resolution *)

(** Induction on values, with the items of a mapping as premises. *)
Lemma pyobj_nested_ind (P : pyobj -> Prop) :
  (forall v, is_dict v = false -> P v) ->
  (forall kind items, Forall (fun kv => P (snd kv)) items -> P (PyDict kind items)) ->
  forall v, P v.
Proof.
  intros Hscalar Hdict. fix IH 1. intros v.
  destruct v as [| | | | | | | | |kind items]; try (apply Hscalar; reflexivity).
  apply Hdict.
  revert items. fix IHitems 1. intros [|[k x] items].
  - constructor.
  - constructor; [apply IH | apply IHitems].
Qed.

Lemma bind_returns {A B} (m : Py A) (f : A -> Py B) self self' b :
  (m ≫= f) self = (self', Return b) ->
  exists self1 a, m self = (self1, Return a) /\ f a self1 = (self', Return b).
Proof.
  rewrite bind_run. destruct (m self) as [self1 [a|e]]; [eauto | discriminate].
Qed.

Lemma for_each_invariant {A} (P : Settings -> Prop) (l : list A) (body : A -> Py unit) :
  Forall (fun a => forall s s', P s -> body a s = (s', Return tt) -> P s') l ->
  forall s s', P s -> for_each l body s = (s', Return tt) -> P s'.
Proof.
  induction 1 as [|a l Ha _ IH]; intros s s' HP Hrun; simpl in Hrun.
  - inversion Hrun. now subst.
  - apply bind_returns in Hrun. destruct Hrun as (s1 & [] & H1 & H2). eauto.
Qed.

Lemma _set_from_parent_env_var_keeps P w name value parent s s' :
  kept_by_writes P name parent ->
  P s -> _set_from_parent_env_var w name value parent s = (s', Return tt) -> P s'.
Proof.
  intros [Hlog Hset] HP. unfold _set_from_parent_env_var.
  destruct parent as [p|]; [|discriminate].
  destruct (cast_like w value (getenv w (nested_var w p name))).
  - eauto.
  - intros H. apply bind_returns in H. destruct H as (s1 & [] & H1 & H2).
    unfold logger in H1. inversion H1; subst. eauto.
  - discriminate.
Qed.

Lemma _set_from_env_var_interpolation_keeps P w name value parent s s' :
  kept_by_writes P name parent ->
  P s -> _set_from_env_var_interpolation w name value parent s = (s', Return tt) -> P s'.
Proof.
  intros [Hlog Hset] HP. unfold _set_from_env_var_interpolation.
  destruct (as_str value); [|discriminate].
  destruct (PyStr.first_interpolation s0); [|discriminate].
  destruct (in_environ w s1); eauto.
Qed.

Lemma _set_from_ssm_keeps P w name value parent s s' :
  kept_by_writes P name parent ->
  P s -> _set_from_ssm w name value parent s = (s', Return tt) -> P s'.
Proof.
  intros [Hlog Hset] HP. unfold _set_from_ssm.
  destruct (_boto_available w); [|discriminate]. cbv beta iota delta [negb].
  destruct (as_str value); [|discriminate].
  destruct (get_parameter w (PyStr.replace "ssm:" "" s0)).
  - eauto.
  - intros H. py_unfold. inversion H. now subst.
  - unfold logger. intros H. inversion H. subst. eauto.
  - discriminate.
Qed.

(** The environment tag is not touched by the resolution. *)
Lemma set_attr_env name value parent s s' o :
  set_attr name value parent s = (s', o) -> env s' = env s.
Proof.
  destruct parent as [p|].
  - destruct (String.eqb p "") eqn:E.
    + apply String.eqb_eq in E. subst p.
      rewrite set_attr_falsy, set_attr_root by reflexivity. intros H. inversion H. reflexivity.
    + rewrite set_attr_truthy by (intros ->; discriminate).
      destruct (dict_get (_store s) p) as [[]|]; intros H; inversion H; reflexivity.
  - rewrite set_attr_root. intros H. inversion H. reflexivity.
Qed.

Lemma env_kept_by_writes e name parent :
  kept_by_writes (fun s => env s = e) name parent.
Proof.
  split.
  - intros s r H. exact H.
  - intros s s' value H Hset. apply set_attr_env in Hset. congruence.
Qed.

Lemma _set_value_from_config_env w value :
  forall name parent s s',
    _set_value_from_config w name value parent s = (s', Return tt) -> env s' = env s.
Proof.
  induction value as [v Hv | kind items IH] using pyobj_nested_ind; intros name parent s s';
    rewrite _set_value_from_config_unfold.
  - destruct (direct_override w name parent); [apply set_attr_env|].
    destruct (nested_override w name parent).
    { intros H. eapply (_set_from_parent_env_var_keeps (fun s0 => env s0 = env s));
        eauto using env_kept_by_writes. }
    destruct v; try discriminate Hv;
      (destruct (is_interpolation _);
       [intros H; eapply (_set_from_env_var_interpolation_keeps (fun s0 => env s0 = env s));
          eauto using env_kept_by_writes|];
       destruct (is_ssm_reference _);
       [intros H; eapply (_set_from_ssm_keeps (fun s0 => env s0 = env s));
          eauto using env_kept_by_writes|];
       apply set_attr_env).
  - destruct (direct_override w name parent); [apply set_attr_env|].
    destruct (nested_override w name parent).
    { intros H. eapply (_set_from_parent_env_var_keeps (fun s0 => env s0 = env s));
        eauto using env_kept_by_writes. }
    apply (for_each_invariant (fun s0 => env s0 = env s)); [|reflexivity].
    eapply Forall_impl; [exact IH|]. simpl. intros [k x] Hx s1 s2 H1 H2.
    apply Hx in H2. congruence.
Qed.

(** A root key holding a scalar keeps it through every write that is not
    a root write to that key: a nested write under that key raises. *)
Lemma scalar_kept_by_writes k x name parent :
  is_dict x = false ->
  (truthy parent = false -> name <> k) ->
  kept_by_writes (fun s => dict_get (_store s) k = Some x) name parent.
Proof.
  intros Hx Hname. split; [intros s r H; exact H|].
  intros s s' value Hk.
  assert (Hroot : truthy parent = false ->
            set_attr name value parent s = (s', Return tt) -> dict_get (_store s') k = Some x).
  { intros T. rewrite set_attr_falsy, set_attr_root by assumption.
    intros H. inversion H. simpl. rewrite dict_get_set_ne; auto. }
  destruct parent as [p|]; [|auto].
  destruct (String.eqb p "") eqn:E.
  { apply Hroot. unfold truthy. now rewrite E. }
  rewrite set_attr_truthy by (intros ->; discriminate).
  assert (Hpk : dict_get (_store s) p <> Some x -> p <> k) by (intros H ->; contradiction).
  destruct (dict_get (_store s) p) as [v|] eqn:G.
  - destruct v; try discriminate.
    intros H. inversion H. simpl. rewrite dict_get_set_ne; [assumption|].
    apply Hpk. intros Heq. inversion Heq. subst x. discriminate.
  - intros H. inversion H. simpl. rewrite !dict_get_set_ne; auto; apply Hpk; discriminate.
Qed.

Lemma truthy_named name : name <> "" -> truthy (Some name) = true.
Proof.
  intros H. unfold truthy. destruct (String.eqb name "") eqn:E; [|reflexivity].
  apply String.eqb_eq in E. contradiction.
Qed.

Lemma _set_value_from_config_keeps_scalar w k x value :
  is_dict x = false ->
  forall name parent s s',
    (truthy parent = false -> name <> k) ->
    (is_dict value = true -> name <> "") ->
    tables_named value = true ->
    dict_get (_store s) k = Some x ->
    _set_value_from_config w name value parent s = (s', Return tt) ->
    dict_get (_store s') k = Some x.
Proof.
  intros Hx.
  induction value as [v Hv | kind items IH] using pyobj_nested_ind;
    intros name parent s s' Hname Hdict Htab Hk;
    pose proof (scalar_kept_by_writes k x name parent Hx Hname) as Hkept;
    rewrite _set_value_from_config_unfold.
  - destruct (direct_override w name parent); [destruct Hkept; eauto|].
    destruct (nested_override w name parent);
      [intros H; eapply (_set_from_parent_env_var_keeps (fun s0 => dict_get (_store s0) k = Some x)); eauto|].
    destruct v; try discriminate Hv;
      (destruct (is_interpolation _);
       [intros H; eapply (_set_from_env_var_interpolation_keeps (fun s0 => dict_get (_store s0) k = Some x)); eauto|];
       destruct (is_ssm_reference _);
       [intros H; eapply (_set_from_ssm_keeps (fun s0 => dict_get (_store s0) k = Some x)); eauto|];
       destruct Hkept; eauto).
  - destruct (direct_override w name parent); [destruct Hkept; eauto|].
    destruct (nested_override w name parent);
      [intros H; eapply (_set_from_parent_env_var_keeps (fun s0 => dict_get (_store s0) k = Some x)); eauto|].
    apply (for_each_invariant (fun s0 => dict_get (_store s0) k = Some x)); [|assumption].
    simpl in Htab. rewrite forallb_forall in Htab.
    rewrite Forall_forall in IH |- *. intros [k' x'] Hin s1 s2 H1 H2.
    specialize (IH _ Hin). specialize (Htab _ (proj1 (list_elem_of_In _ _) Hin)).
    simpl in IH, Htab. apply andb_prop in Htab. destruct Htab as [Hnamed Hsub].
    eapply (IH k' (Some name) s1 s2); eauto.
    + rewrite truthy_named by auto. discriminate.
    + intros Hd. rewrite Hd in Hnamed. simpl in Hnamed.
      apply negb_true_iff in Hnamed. intros ->. discriminate.
Qed.

(** What a root entry that is not a table (or is overridden) stores for
    its key does not depend on the store it is resolved in. *)
Lemma scalar_entry_resolution w k v x empty s s' :
  _store empty = [] ->
  (is_dict v = false \/ direct_override w k None = true) ->
  dict_get (store_after (_set_value_from_config w k v None) empty) k = Some x ->
  _set_value_from_config w k v None s = (s', Return tt) ->
  dict_get (_store s') k = Some x /\ is_dict x = false.
Proof.
  intros Hempty Hv. unfold store_after. rewrite !_set_value_from_config_unfold.
  destruct (direct_override w k None) eqn:D.
  - rewrite !set_attr_root. simpl. rewrite !dict_get_set_eq.
    intros He Hs. inversion He. inversion Hs. simpl. rewrite dict_get_set_eq.
    split; [reflexivity|]. destruct (getenv w (str_upper w k)); reflexivity.
  - destruct Hv as [Hv|Hv]; [|discriminate].
    change (nested_override w k None) with false. cbv iota.
    assert (Hnone : dict_get (_store empty) k = Some x -> False)
      by (rewrite Hempty; discriminate).
    assert (Hset : forall value, is_dict value = false ->
              dict_get (_store (fst (set_attr k value None empty))) k = Some x ->
              set_attr k value None s = (s', Return tt) ->
              dict_get (_store s') k = Some x /\ is_dict x = false).
    { intros value Hval. rewrite !set_attr_root. simpl. rewrite dict_get_set_eq.
      intros He Hs. inversion He. inversion Hs. simpl. rewrite dict_get_set_eq.
      split; [reflexivity|]. unfold stored. destruct value; try reflexivity; discriminate. }
    destruct v; try discriminate Hv;
      (destruct (is_interpolation _);
       [unfold _set_from_env_var_interpolation;
        destruct (as_str _); [|intros He; now apply Hnone in He];
        destruct (PyStr.first_interpolation _); [|intros He; now apply Hnone in He];
        destruct (in_environ w _); apply Hset; try reflexivity;
        destruct (getenv w _); reflexivity |];
       destruct (is_ssm_reference _);
       [unfold _set_from_ssm;
        destruct (_boto_available w); cbv beta iota delta [negb];
          [|intros He; now apply Hnone in He];
        destruct (as_str _); [|intros He; now apply Hnone in He];
        destruct (get_parameter w _);
          [apply Hset; reflexivity | intros He; now apply Hnone in He ..] |];
       apply Hset; reflexivity).
Qed.

Lemma apply_section_keeps_scalar w k x section s s' :
  is_dict x = false ->
  section_leaves_root_key k section = true ->
  dict_get (_store s) k = Some x ->
  apply_section w section s = (s', Return tt) ->
  dict_get (_store s') k = Some x.
Proof.
  intros Hx Hsec Hk. destruct section; try discriminate. simpl in Hsec |- *.
  apply (for_each_invariant (fun s0 => dict_get (_store s0) k = Some x)); [|assumption].
  rewrite forallb_forall in Hsec. rewrite Forall_forall. intros [name v] Hin s1 s2 H1 H2.
  specialize (Hsec _ (proj1 (list_elem_of_In _ _) Hin)). unfold leaves_root_key in Hsec.
  simpl in Hsec, H2.
  apply andb_prop in Hsec. destruct Hsec as [Hsec Htab].
  apply andb_prop in Hsec. destruct Hsec as [Hne Hnamed].
  apply negb_true_iff in Hne.
  eapply (_set_value_from_config_keeps_scalar w k x v Hx name None); eauto.
  - intros _ ->. rewrite String.eqb_refl in Hne. discriminate.
  - intros Hd. rewrite Hd in Hnamed. simpl in Hnamed. apply negb_true_iff in Hnamed.
    intros ->. discriminate.
Qed.

Lemma apply_section_env w section s s' :
  apply_section w section s = (s', Return tt) -> env s' = env s.
Proof.
  destruct section; try discriminate. simpl.
  apply (for_each_invariant (fun s0 => env s0 = env s)); [|reflexivity].
  rewrite Forall_forall. intros [name v] _ s1 s2 H1 H2. simpl in H2.
  apply _set_value_from_config_env in H2. congruence.
Qed.

Lemma load_step_env w ti s s' :
  load_step w ti s = (s', Return tt) -> env s' = env s.
Proof.
  unfold load_step. rewrite bind_run. unfold get_self.
  destruct (applies (env s) ti.1); [apply apply_section_env|].
  intros H. inversion H. reflexivity.
Qed.

(** The entry of an applied table outlives the rest of the load when
    nothing after it writes its root key. *)
Lemma load_entry_survives
    w path self settings_data pre table kind before k v after post x :
  read_toml w path = Parsed settings_data ->
  settings_data = (pre ++ (table, PyDict kind (before ++ (k, v) :: after)) :: post)%list ->
  applies (env self) table = true ->
  (is_dict v = false \/ direct_override w k None = true) ->
  dict_get (store_after (_set_value_from_config w k v None) (with_store self [])) k = Some x ->
  forallb (leaves_root_key k) after = true ->
  forallb (fun section => negb (applies (env self) (fst section))
                          || section_leaves_root_key k (snd section)) post = true ->
  result_of (load w path) self = Return tt ->
  dict_get (store_after (load w path) self) k = Some x.
Proof.
  intros Hread Hdata Happ Hv Halone Hafter Hpost. unfold result_of, store_after, load.
  rewrite Hread, bind_run. unfold clear, set_store.
  destruct (dict_contains settings_data "default"); [|discriminate].
  cbv beta iota delta [negb].
  remember (with_store self []) as s0 eqn:Hs0.
  assert (He0 : env s0 = env self) by (subst s0; reflexivity).
  destruct (for_each settings_data (load_step w) s0) as [sf o] eqn:Hrun.
  simpl. intros ->. subst settings_data.
  rewrite for_each_app in Hrun. apply bind_returns in Hrun.
  destruct Hrun as (s1 & [] & Hpre & Hrun). simpl in Hrun.
  apply bind_returns in Hrun. destruct Hrun as (s2 & [] & Hsec & Hrest).
  assert (He1 : env s1 = env self).
  { apply (for_each_invariant (fun s => env s = env self) pre (load_step w)) with (s := s0);
      [|assumption|assumption].
    rewrite Forall_forall. intros ti _ a b Ha Hb. apply load_step_env in Hb. congruence. }
  unfold load_step in Hsec. rewrite bind_run in Hsec. unfold get_self in Hsec.
  simpl in Hsec. rewrite He1, Happ in Hsec.
  rewrite for_each_app in Hsec. apply bind_returns in Hsec.
  destruct Hsec as (s1a & [] & Hbefore & Hsec). simpl in Hsec.
  apply bind_returns in Hsec. destruct Hsec as (s1b & [] & Hkv & Hafter_run).
  destruct (scalar_entry_resolution w k v x s0 s1a s1b) as [Hk Hx]; auto.
  { subst s0. reflexivity. }
  assert (He2 : env s2 = env self).
  { assert (env s1b = env s1a) by (apply _set_value_from_config_env in Hkv; exact Hkv).
    assert (E : env s1a = env self).
    { apply (for_each_invariant (fun s => env s = env self)) in Hbefore; auto.
      rewrite Forall_forall. intros [n u] _ a b Ha Hb. simpl in Hb.
      apply _set_value_from_config_env in Hb. congruence. }
    apply (for_each_invariant (fun s => env s = env self)) in Hafter_run; [assumption| |congruence].
    rewrite Forall_forall. intros [n u] _ a b Ha Hb. simpl in Hb.
    apply _set_value_from_config_env in Hb. congruence. }
  assert (Hk2 : dict_get (_store s2) k = Some x).
  { apply (apply_section_keeps_scalar w k x (PyDict kind after) s1b s2); auto. }
  apply (for_each_invariant
           (fun s => env s = env self /\ dict_get (_store s) k = Some x) post (load_step w))
    with (s := s2); [|auto|assumption].
  rewrite forallb_forall in Hpost. rewrite Forall_forall.
  intros ti Hin a b [Hea Hka] Hb. split.
  - apply load_step_env in Hb. congruence.
  - specialize (Hpost _ (proj1 (list_elem_of_In _ _) Hin)).
    unfold load_step in Hb. rewrite bind_run in Hb. unfold get_self in Hb.
    rewrite Hea in Hb. destruct (applies (env self) ti.1); simpl in Hpost.
    + eapply apply_section_keeps_scalar; eauto.
    + inversion Hb. now subst.
Qed.

(** *** Nested keys *)










(** ** Strings that [int] rejects *)

Lemma lstrip_keeps c l :
  PyStr.is_space c = false -> In c l -> In c (PyStr.lstrip l).
Proof.
  intros Hc. induction l as [|a l IH]; simpl; [auto|].
  intros [->|Hin].
  - rewrite Hc. now left.
  - destruct (PyStr.is_space a); [auto | now right].
Qed.

Lemma strip_keeps c l :
  PyStr.is_space c = false -> In c l -> In c (PyStr.strip l).
Proof.
  intros Hc Hin. unfold PyStr.strip.
  apply in_rev. rewrite rev_involutive.
  apply lstrip_keeps; [assumption|]. apply -> in_rev. now apply lstrip_keeps.
Qed.

Lemma digits_rejects c l :
  PyStr.digit c = None -> Ascii.eqb c "_" = false -> In c l ->
  forall acc after_digit, PyStr.digits acc after_digit l = None.
Proof.
  intros Hd Hu. induction l as [|a l IH]; simpl; [contradiction|].
  intros [->|Hin] acc b.
  - now rewrite Hd, Hu.
  - destruct (PyStr.digit a); [auto|]. destruct (Ascii.eqb a "_" && b); auto.
Qed.

Lemma literal_value_rejects S c :
  In c (list_ascii_of_string S) -> not_in_integers c = true -> PyStr.literal_value S = None.
Proof.
  intros Hin Hc. unfold not_in_integers in Hc.
  repeat (apply andb_prop in Hc; destruct Hc as [Hc ?]).
  repeat match goal with H : negb _ = true |- _ => apply negb_true_iff in H end.
  assert (Hd : PyStr.digit c = None) by (destruct (PyStr.digit c); [discriminate|reflexivity]).
  pose proof (strip_keeps c _ Hc Hin) as Hs.
  unfold PyStr.literal_value.
  destruct (PyStr.strip (list_ascii_of_string S)) as [|a l]; [reflexivity|].
  destruct (Ascii.eqb a "-") eqn:E1; [|destruct (Ascii.eqb a "+") eqn:E2].
  - apply Ascii.eqb_eq in E1. subst a. destruct Hs as [<-|Hs]; [discriminate|].
    now rewrite (digits_rejects c l).
  - apply Ascii.eqb_eq in E2. subst a. destruct Hs as [<-|Hs]; [discriminate|].
    now rewrite (digits_rejects c l).
  - now apply (digits_rejects c).
Qed.

(** An ASCII string with a character that is no part of an integer
    literal is not numeric: [int] raises [ValueError] on it. *)
Lemma int_rejects w S c :
  PyStr.is_ascii S = true ->
  In c (list_ascii_of_string S) -> not_in_integers c = true -> int_of_str w S = None.
Proof.
  intros Ha Hin Hc. unfold int_of_str, PyStr.ascii_int.
  now rewrite Ha, (literal_value_rejects S c Hin Hc).
Qed.

Example int_rejects_abc w : int_of_str w "abc" = None.
Proof. apply (int_rejects w "abc" "a"); [reflexivity | now left | reflexivity]. Qed.

(** ** The string operations on examples *)

Example upper_project_name : PyStr.ascii_upper "project_name" = "PROJECT_NAME".
Proof. reflexivity. Qed.

Example int_examples :
  PyStr.ascii_int 4300 " -1_000 " = Some (-1000) /\ PyStr.ascii_int 4300 "abc" = None /\
  PyStr.ascii_int 4300 "1__0" = None /\ PyStr.ascii_int 4300 "" = None /\
  PyStr.ascii_int 4300 "007" = Some 7 /\
  PyStr.ascii_int 4300 (String (ascii_of_nat 28) "5") = None /\
  PyStr.ascii_int 2 "123" = None /\ PyStr.ascii_int 0 "123" = Some 123.
Proof. repeat split; reflexivity. Qed.

Example first_interpolation_examples :
  PyStr.first_interpolation "${SOME_ENV_VAR}" = Some "SOME_ENV_VAR" /\
  PyStr.first_interpolation "${A}${B}" = Some "A" /\
  PyStr.first_interpolation "${}" = Some "" /\
  PyStr.first_interpolation (String "$" (String "{" (String PyStr.newline "}"))) = None.
Proof. repeat split; reflexivity. Qed.

Example replace_ssm :
  PyStr.replace "ssm:" "" "ssm:/data/test/my_var" = "/data/test/my_var" /\
  PyStr.replace "ssm:" "" "ssm:/a/ssm:b" = "/a/b".
Proof. split; reflexivity. Qed.


(** ** The repository's tests, replayed *)

Example test_load :
  let w := process [] false no_ssm example_toml in
  let settings := fst (load w "example.toml" (new_settings "local")) in
  let touched := fst (__setitem__ "test" (PyInt 123) settings) in
  result_of (load w "fake_file.toml") (new_settings "local") = Raise OSError /\
  result_of (__getattr__ w "project_name") settings = Return (Obj (PyStr "configur")) /\
  hasattr w "test" touched = true /\
  hasattr w "test" (fst (load w "example.toml" touched)) = false.
Proof. repeat split; reflexivity. Qed.

Example test_clear :
  let w := process [] false no_ssm example_toml in
  let settings := fst (load w "example.toml" (new_settings "local")) in
  hasattr w "project_name" settings = true /\
  hasattr w "project_name" (fst (clear settings)) = false.
Proof. split; reflexivity. Qed.

Example test_set_value_from_config_env_var_parent :
  let w := process [("PARENT_CHILD", "abc")] false no_ssm (fun _ => NoSuchFile) in
  store_after (_set_value_from_config w "child" (PyStr "test") (Some "parent")) (new_settings "local")
  = [("parent", PyDict BoxDict [("child", PyStr "abc")])].
Proof. reflexivity. Qed.

Example test_set_value_from_config_dict :
  let w := process [] false no_ssm (fun _ => NoSuchFile) in
  store_after (_set_value_from_config w "new_table"
                 (PyDict PlainDict [("a", PyInt 1); ("b", PyInt 2)]) None) (new_settings "local")
  = [("new_table", PyDict BoxDict [("a", PyInt 1); ("b", PyInt 2)])].
Proof. reflexivity. Qed.

Example test_set_attr :
  let w := process [] false no_ssm example_toml in
  let settings := fst (load w "example.toml" (new_settings "local")) in
  let s1 := fst (set_attr "test_var" (PyStr "abc") None settings) in
  let s2 := fst (set_attr "child" (PyStr "abc") (Some "parent") s1) in
  let s3 := fst (set_attr "test_dict" (PyDict PlainDict [("abc", PyInt 123)]) None s2) in
  hasattr w "test_var" settings = false /\ hasattr w "test_var" s1 = true /\
  hasattr w "parent" s1 = false /\ hasattr w "parent" s2 = true /\
  nested_get (_store s2) "parent" "child" = Some (PyStr "abc") /\
  nested_get (_store s3) "test_dict" "abc" = Some (PyInt 123).
Proof. repeat split; reflexivity. Qed.

Example test_getitem :
  let w := process [] false no_ssm example_toml in
  let settings := fst (load w "example.toml" (new_settings "local")) in
  result_of (__getitem__ "project_name") settings = Return (PyStr "configur") /\
  result_of (__getitem__ "fake_var") settings = Raise KeyError /\
  result_of (__contains__ w "project_name") settings = Return true.
Proof. repeat split; reflexivity. Qed.

(** * Further properties of the class *)

(** ** Loading again, clearing *)

(** X1. Loading a file that exists starts from a cleared store: the
    outcome and the instance it leaves are the same whatever the store held
    before, so nothing of an earlier load or assignment survives. *)
Theorem load_discards_prior_store w path self old :
  read_toml w path <> NoSuchFile ->
  load w path (with_store self old) = load w path self.
Proof.
  intros Hfile. unfold load. destruct (read_toml w path); [contradiction | reflexivity ..].
Qed.

Lemma load_discards_prior_store_witness :
  let w := process [] false no_ssm example_toml in
  load w "example.toml" (with_store (new_settings "dev") [("test", PyInt 123)])
  = load w "example.toml" (new_settings "dev").
Proof.
  apply (load_discards_prior_store (process [] false no_ssm example_toml) "example.toml"
           (new_settings "dev") [("test", PyInt 123)]).
  discriminate.
Defined.

Lemma not_internal key :
  ~ In key INTERNAL_ATTRS -> existsb (String.eqb key) INTERNAL_ATTRS = false.
Proof.
  intros H. destruct (existsb (String.eqb key) INTERNAL_ATTRS) eqn:E; [|reflexivity].
  apply existsb_exists in E. destruct E as [x [Hx Heq]].
  apply String.eqb_eq in Heq. subst x. contradiction.
Qed.

(** X2. After [clear] no key is left: for a name that attribute lookup
    does not resolve elsewhere (an internal field, a name of the Settings
    class, of [object] or of the container class), the subscript read
    raises [KeyError], the attribute probe and the membership test are
    false, and the enumeration is empty; the environment tag is kept. *)
Theorem clear_forgets_every_key w key self :
  ~ In key INTERNAL_ATTRS ->
  ~ In key SETTINGS_ATTRS ->
  object_attr w key = false ->
  box_class_attr w key = false ->
  box_safe_key w [] key = None ->
  let cleared := fst (clear self) in
  result_of clear self = Return tt /\
  result_of (__getitem__ key) cleared = Raise KeyError /\
  hasattr w key cleared = false /\
  result_of (__contains__ w key) cleared = Return false /\
  View.keys cleared = [] /\
  env cleared = env self.
Proof.
  intros Hint Hown Hobj Hcls Hsafe. cbv zeta. unfold clear, set_store, result_of. simpl.
  repeat split. unfold hasattr, result_of, getattribute, __getattr__.
  rewrite (not_listed _ _ Hint), (not_listed _ _ Hown), Hobj. unfold box_getattr. simpl.
  now rewrite Hcls, Hsafe.
Qed.

Lemma clear_forgets_every_key_witness :
  let w := process [] false no_ssm example_toml in
  let loaded := fst (load w "example.toml" (new_settings "local")) in
  let cleared := fst (clear loaded) in
  result_of clear loaded = Return tt /\
  result_of (__getitem__ "project_name") cleared = Raise KeyError /\
  hasattr w "project_name" cleared = false /\
  result_of (__contains__ w "project_name") cleared = Return false /\
  View.keys cleared = [] /\
  env cleared = env loaded.
Proof.
  apply (clear_forgets_every_key (process [] false no_ssm example_toml) "project_name"
           (fst (load (process [] false no_ssm example_toml) "example.toml"
                   (new_settings "local")))).
  - simpl. intros H. repeat (destruct H as [H|H]; [discriminate|]). exact H.
  - simpl. intros H. repeat (destruct H as [H|H]; [discriminate|]). exact H.
  - reflexivity.
  - reflexivity.
  - reflexivity.
Defined.

(** ** Writing and reading back *)

Lemma stored_none value : stored value = PyNone -> value = PyNone.
Proof. destruct value; try discriminate; reflexivity. Qed.

Lemma dict_contains_set {A} (d : list (string * A)) k v k' :
  dict_contains (dict_set d k v) k' = String.eqb k k' || dict_contains d k'.
Proof.
  unfold dict_contains. destruct (String.eqb k k') eqn:E.
  - apply String.eqb_eq in E. subst k'. now rewrite dict_get_set_eq.
  - rewrite dict_get_set_ne; [reflexivity|]. intros ->. rewrite String.eqb_refl in E. discriminate.
Qed.

(** X3. A value assigned to a key by subscript is read back by subscript
    in its stored form (wrappers reduced to builtins, a mapping as a
    [Box]), unless it is [None]; reads of the other keys are unchanged. *)
Theorem setitem_then_getitem key value self :
  let written := fst (__setitem__ key value self) in
  result_of (__setitem__ key value) self = Return tt /\
  (value <> PyNone -> result_of (__getitem__ key) written = Return (stored value)) /\
  (forall other, other <> key ->
     result_of (__getitem__ other) written = result_of (__getitem__ other) self).
Proof.
  cbv zeta. unfold __setitem__. rewrite set_attr_root. unfold result_of. simpl.
  split; [reflexivity|]. split.
  - intros Hv. unfold __getitem__, box_get. simpl. rewrite dict_get_set_eq.
    destruct (stored value) eqn:E; try reflexivity.
    apply stored_none in E. contradiction.
  - intros other Hne. unfold __getitem__, box_get. simpl.
    rewrite dict_get_set_ne by congruence.
    destruct (dict_get (_store self) other) as [[]|]; reflexivity.
Qed.

Lemma setitem_then_getitem_witness :
  let self := fst (__setitem__ "project_name" (PyStr "configur") (new_settings "local")) in
  let written := fst (__setitem__ "limit" (TomlInteger 5) self) in
  result_of (__getitem__ "limit") written = Return (PyInt 5) /\
  result_of (__getitem__ "project_name") written = Return (PyStr "configur").
Proof.
  pose proof (setitem_then_getitem "limit" (TomlInteger 5)
                (fst (__setitem__ "project_name" (PyStr "configur") (new_settings "local"))))
    as (_ & H1 & H2).
  split.
  - apply H1. discriminate.
  - rewrite (H2 "project_name"); [reflexivity | discriminate].
Defined.

(** X4. Writing a child under a parent whose slot holds a value that is
    not a mapping raises [TypeError] and changes nothing: the slot is
    neither replaced nor turned into a table. *)
Theorem set_attr_under_scalar_raises name value parent x self :
  parent <> "" ->
  dict_get (_store self) parent = Some x ->
  is_dict x = false ->
  set_attr name value (Some parent) self = (self, Raise TypeError).
Proof.
  intros Hp Hget Hx. rewrite set_attr_truthy by assumption. rewrite Hget.
  destruct x; try reflexivity. discriminate.
Qed.

Lemma set_attr_under_scalar_raises_witness :
  let self := fst (set_attr "db" (PyStr "sqlite") None (new_settings "local")) in
  set_attr "host" (PyStr "localhost") (Some "db") self = (self, Raise TypeError).
Proof.
  apply (set_attr_under_scalar_raises "host" (PyStr "localhost") "db" (PyStr "sqlite")
           (fst (set_attr "db" (PyStr "sqlite") None (new_settings "local")))).
  - discriminate.
  - reflexivity.
  - reflexivity.
Defined.

Lemma dict_keys_set {A} (d : list (string * A)) k v :
  dict_keys (dict_set d k v) = if dict_contains d k then dict_keys d else (dict_keys d ++ [k])%list.
Proof.
  unfold dict_contains, dict_keys. induction d as [|[k' v'] d IH]; simpl; [reflexivity|].
  destruct (String.eqb k' k) eqn:E; simpl.
  - apply String.eqb_eq in E. now subst k'.
  - rewrite IH. destruct (dict_get d k); reflexivity.
Qed.

(** X5. Assigning to a key keeps the order of enumeration: a key that is
    already there stays at its place, a new key goes last. *)
Theorem setitem_keeps_order key value self :
  View.keys (fst (__setitem__ key value self)) =
  if dict_contains (_store self) key then View.keys self else (View.keys self ++ [key])%list.
Proof.
  unfold __setitem__. rewrite set_attr_root. unfold View.keys. simpl. apply dict_keys_set.
Qed.

(** X6. The membership test after an assignment: [item in settings] holds
    exactly when the key written is the upper-cased or the lower-cased
    [item], or one of those two forms was a key before. A key of mixed
    case is therefore not found under its own name. *)
Theorem contains_after_setitem w item key value self :
  result_of (__contains__ w item) (fst (__setitem__ key value self)) =
  Return (String.eqb key (str_upper w item) || String.eqb key (str_lower w item)
          || dict_contains (_store self) (str_upper w item)
          || dict_contains (_store self) (str_lower w item)).
Proof.
  unfold __setitem__. rewrite set_attr_root. unfold result_of, __contains__. simpl.
  rewrite !dict_contains_set. f_equal.
  destruct (String.eqb key (str_upper w item)), (String.eqb key (str_lower w item)),
    (dict_contains (_store self) (str_upper w item)); reflexivity.
Qed.

Lemma contains_after_setitem_witness :
  let w := process [] false no_ssm (fun _ => NoSuchFile) in
  result_of (__contains__ w "Timeout")
    (fst (__setitem__ "Timeout" (PyInt 3) (new_settings "local"))) = Return false /\
  result_of (__contains__ w "TimeOut")
    (fst (__setitem__ "timeout" (PyInt 3) (new_settings "local"))) = Return true /\
  result_of (__contains__ w "timeout")
    (fst (__setitem__ "TIMEOUT" (PyInt 3) (new_settings "local"))) = Return true.
Proof.
  split; [|split].
  - exact (contains_after_setitem (process [] false no_ssm (fun _ => NoSuchFile))
             "Timeout" "Timeout" (PyInt 3) (new_settings "local")).
  - exact (contains_after_setitem (process [] false no_ssm (fun _ => NoSuchFile))
             "TimeOut" "timeout" (PyInt 3) (new_settings "local")).
  - exact (contains_after_setitem (process [] false no_ssm (fun _ => NoSuchFile))
             "timeout" "TIMEOUT" (PyInt 3) (new_settings "local")).
Defined.

Example mixed_case_key_is_not_found :
  let w := process [] false no_ssm (fun _ => NoSuchFile) in
  let written := fst (__setitem__ "Timeout" (PyInt 3) (new_settings "local")) in
  result_of (__getitem__ "Timeout") written = Return (PyInt 3) /\
  result_of (__contains__ w "Timeout") written = Return false /\
  result_of (__contains__ w "TIMEOUT") (fst (__setitem__ "timeout" (PyInt 3) (new_settings "local")))
    = Return true.
Proof. repeat split; reflexivity. Qed.

(** X7. The attribute read after an assignment returns the stored value,
    except under the names of the three internal fields, which always read
    the field and never the key of that name. *)
Theorem getattr_after_setitem w key value self :
  let written := fst (__setitem__ key value self) in
  (In key INTERNAL_ATTRS ->
     result_of (__getattr__ w key) written = Return (internal_attr w written key)) /\
  (~ In key INTERNAL_ATTRS -> box_class_attr w key = false ->
     result_of (__getattr__ w key) written = Return (Obj (stored value))).
Proof.
  cbv zeta. unfold __setitem__. rewrite set_attr_root. unfold result_of, __getattr__. simpl fst.
  split.
  - intros Hin.
    assert (E : existsb (String.eqb key) INTERNAL_ATTRS = true).
    { apply existsb_exists. exists key. split; [assumption | apply String.eqb_refl]. }
    now rewrite E.
  - intros Hint Hcls. rewrite (not_internal _ Hint). unfold box_getattr. simpl.
    now rewrite Hcls, dict_get_set_eq.
Qed.

Lemma getattr_after_setitem_witness :
  let w := process [] false no_ssm (fun _ => NoSuchFile) in
  result_of (__getattr__ w "env") (fst (__setitem__ "env" (PyStr "prod") (new_settings "local")))
    = Return (Obj (PyStr "local")) /\
  result_of (__getattr__ w "test") (fst (__setitem__ "test" (PyInt 123) (new_settings "local")))
    = Return (Obj (PyInt 123)).
Proof.
  split.
  - apply (proj1 (getattr_after_setitem (process [] false no_ssm (fun _ => NoSuchFile))
                    "env" (PyStr "prod") (new_settings "local"))).
    simpl. auto.
  - apply (proj2 (getattr_after_setitem (process [] false no_ssm (fun _ => NoSuchFile))
                    "test" (PyInt 123) (new_settings "local"))).
    + simpl. intros [H|[H|[H|[]]]]; discriminate.
    + reflexivity.
Defined.

(** ** Which tables are applied *)

Lemma prefix_append (e suffix : string) : String.prefix e (e ++ suffix) = true.
Proof.
  induction e as [|c e IH]; simpl String.append.
  - apply prefix_empty.
  - rewrite prefix_cons, Ascii.eqb_refl. exact IH.
Qed.


Example longer_table_name_is_applied :
  let data := [ ("default", PyDict TomlTable [("level", TomlString "info")]);
                ("development", PyDict TomlTable [("level", TomlString "debug")]) ] in
  let w := process [] false no_ssm (one_file "example.toml" data) in
  store_after (load w "example.toml") (new_settings "dev") = [("level", PyStr "debug")].
Proof. reflexivity. Qed.

(** ** More on the secret store *)

Lemma replace_without_occurrence old new s :
  occurs old s = false -> PyStr.replace_from old new O s = s.
Proof.
  induction s as [|c s IH]; [reflexivity|].
  simpl occurs. intros H. apply orb_false_iff in H. destruct H as [H1 H2].
  simpl. rewrite H1. f_equal. auto.
Qed.

Lemma replace_ssm_prefix path :
  occurs "ssm:" path = false -> PyStr.replace "ssm:" "" ("ssm:" ++ path) = path.
Proof.
  intros H. unfold PyStr.replace. simpl String.append.
  cbn [PyStr.replace_from]. rewrite !prefix_cons, prefix_empty. simpl.
  now apply replace_without_occurrence.
Qed.

(** X9. With the provider available, a raw string [ssm:] followed by a
    parameter name (in which [ssm:] does not occur again) is resolved to
    the value the provider returns for that name, stored as a string; the
    call returns and nothing is logged. *)
Theorem ssm_reference_stores_the_parameter w name value path secret parent self :
  as_str value = Some ("ssm:" ++ path) ->
  occurs "ssm:" path = false ->
  _boto_available w = true ->
  get_parameter w path = SsmParameter secret ->
  direct_override w name parent = false ->
  nested_override w name parent = false ->
  slot_writable (_store self) parent ->
  let m := _set_value_from_config w name value parent in
  result_of m self = Return tt /\
  lookup_resolved (store_after m self) parent name = Some (PyStr secret) /\
  log_records (fst (m self)) = log_records self.
Proof.
  intros Hs Hocc Hb Hfetch Hd Hn Hslot m. subst m. unfold result_of, store_after.
  assert (Hssm : is_ssm_reference value = true).
  { unfold is_ssm_reference, PyStr.startswith. rewrite Hs. apply prefix_append. }
  rewrite _set_value_from_config_scalar by eauto using as_str_not_dict.
  rewrite (ssm_reference_not_interpolation _ Hssm), Hssm.
  unfold _set_from_ssm. rewrite Hb, Hs, (replace_ssm_prefix _ Hocc), Hfetch.
  cbv beta iota delta [negb].
  exact (set_attr_writes name (PyStr secret) parent self Hslot).
Qed.

Lemma ssm_reference_stores_the_parameter_witness :
  let ssm := fun n => if String.eqb n "/data/test/my_var" then SsmParameter "test"
                      else SsmClientError in
  let w := process [] true ssm (fun _ => NoSuchFile) in
  let m := _set_value_from_config w "ssm_var" (PyStr "ssm:/data/test/my_var") None in
  result_of m (new_settings "local") = Return tt /\
  dict_get (store_after m (new_settings "local")) "ssm_var" = Some (PyStr "test") /\
  log_records (fst (m (new_settings "local"))) = [].
Proof.
  exact (ssm_reference_stores_the_parameter
           (process [] true
              (fun n => if String.eqb n "/data/test/my_var" then SsmParameter "test"
                        else SsmClientError) (fun _ => NoSuchFile))
           "ssm_var" (PyStr "ssm:/data/test/my_var") "/data/test/my_var" "test" None
           (new_settings "local") eq_refl eq_refl eq_refl eq_refl eq_refl eq_refl I).
Defined.

(** ** More on interpolation *)



(** X11. A raw string that has the shape of a reference (it begins with
    [${] and ends with a closing brace) but in which the pattern finds no
    match, because a line feed comes before the first closing brace, makes
    the resolution raise [IndexError]; nothing is stored. *)
Theorem interpolation_without_match_raises w name value s parent self :
  as_str value = Some s ->
  is_interpolation value = true ->
  PyStr.first_interpolation s = None ->
  direct_override w name parent = false ->
  nested_override w name parent = false ->
  _set_value_from_config w name value parent self = (self, Raise IndexError).
Proof.
  intros Hs Hi Hf Hd Hn.
  rewrite _set_value_from_config_scalar by eauto using as_str_not_dict.
  rewrite Hi. unfold _set_from_env_var_interpolation. now rewrite Hs, Hf.
Qed.

Lemma interpolation_without_match_raises_witness :
  let w := process [] false no_ssm (fun _ => NoSuchFile) in
  let s := String "$" (String "{" (String PyStr.newline "}")) in
  _set_value_from_config w "key" (TomlString s) None (new_settings "local")
  = (new_settings "local", Raise IndexError).
Proof.
  exact (interpolation_without_match_raises
           (process [] false no_ssm (fun _ => NoSuchFile)) "key"
           (TomlString (String "$" (String "{" (String PyStr.newline "}"))))
           (String "$" (String "{" (String PyStr.newline "}"))) None (new_settings "local")
           eq_refl eq_refl eq_refl eq_refl eq_refl).
Defined.

(** ** More on the nested override *)

Lemma nested_override_cast w child parent S self value v :
  parent <> "" ->
  environ w !! nested_var w parent child = Some S ->
  parent_slot_free_or_mapping (_store self) parent ->
  cast_like w value (Some S) = Cast v ->
  let m := _set_value_from_config w child value (Some parent) in
  result_of m self = Return tt /\
  nested_get (store_after m self) parent child = Some (stored v) /\
  log_records (fst (m self)) = log_records self.
Proof.
  intros Hp Henv Hslot Hcast m. subst m. unfold result_of, store_after.
  rewrite (_set_value_from_config_nested_override _ _ _ _ _ S) by assumption.
  rewrite Hcast. exact (set_attr_nested child v parent self Hp Hslot).
Qed.

(** X12. A nested key whose variable [UPPER(parent)_UPPER(child)] is set
    to [S] takes [S] cast to the type of the raw value when the cast
    succeeds: the string [S] for a raw string, the integer [int(S)] for a
    raw integer, the float [float(S)] for a raw float; nothing is logged. *)
Theorem nested_override_cast_succeeds w child parent S self :
  parent <> "" ->
  environ w !! nested_var w parent child = Some S ->
  parent_slot_free_or_mapping (_store self) parent ->
  let run value := _set_value_from_config w child value (Some parent) in
  let got value := nested_get (store_after (run value) self) parent child in
  (forall raw, got (PyStr raw) = Some (PyStr S) /\ got (TomlString raw) = Some (PyStr S)) /\
  (forall raw z, int_of_str w S = Some z ->
     got (PyInt raw) = Some (PyInt z) /\ got (TomlInteger raw) = Some (PyInt z)) /\
  (forall raw f, float_of_str w S = Some f ->
     got (PyFloat raw) = Some (PyFloat f) /\ got (TomlFloat raw) = Some (PyFloat f)) /\
  (forall value v, cast_like w value (Some S) = Cast v ->
     result_of (run value) self = Return tt /\
     log_records (fst (run value self)) = log_records self).
Proof.
  intros Hp Henv Hslot run got. subst run got.
  pose proof (fun value v H => nested_override_cast w child parent S self value v Hp Henv Hslot H)
    as Hcast. cbv zeta in Hcast.
  repeat split.
  - exact (proj1 (proj2 (Hcast (PyStr raw) (PyStr S) eq_refl))).
  - exact (proj1 (proj2 (Hcast (TomlString raw) (PyStr S) eq_refl))).
  - refine (proj1 (proj2 (Hcast (PyInt raw) (PyInt z) _))). simpl. unfold cast_int. now rewrite H.
  - refine (proj1 (proj2 (Hcast (TomlInteger raw) (PyInt z) _))). simpl. unfold cast_int.
    now rewrite H.
  - refine (proj1 (proj2 (Hcast (PyFloat raw) (PyFloat f) _))). simpl. unfold cast_float.
    now rewrite H.
  - refine (proj1 (proj2 (Hcast (TomlFloat raw) (PyFloat f) _))). simpl. unfold cast_float.
    now rewrite H.
  - exact (proj1 (Hcast value v H)).
  - exact (proj2 (proj2 (Hcast value v H))).
Qed.

Lemma nested_override_cast_succeeds_witness :
  let w := process [("DB_PORT", " 5_432 ")] false no_ssm (fun _ => NoSuchFile) in
  nested_get (store_after (_set_value_from_config w "port" (TomlInteger 1) (Some "db"))
                (new_settings "local")) "db" "port" = Some (PyInt 5432) /\
  nested_get (store_after (_set_value_from_config w "port" (PyStr "1") (Some "db"))
                (new_settings "local")) "db" "port" = Some (PyStr " 5_432 ").
Proof.
  assert (Hp : "db" <> "") by discriminate.
  pose proof (nested_override_cast_succeeds
                (process [("DB_PORT", " 5_432 ")] false no_ssm (fun _ => NoSuchFile))
                "port" "db" " 5_432 " (new_settings "local") Hp eq_refl I) as (H1 & H2 & _).
  split.
  - exact (proj2 (H2 1 5432 eq_refl)).
  - exact (proj1 (H1 "1")).
Defined.



(** ** The store is kept in normal form *)

Lemma for_each_always {A} (P : Settings -> Prop) (l : list A) (body : A -> Py unit) :
  Forall (fun a => forall s, P s -> P (fst (body a s))) l ->
  forall s, P s -> P (fst (for_each l body s)).
Proof.
  induction 1 as [|a l Ha _ IH]; intros s HP; simpl; [assumption|].
  rewrite bind_run. specialize (Ha s HP).
  destruct (body a s) as [s1 [[]|e]]; simpl in Ha |- *; auto.
Qed.

Lemma forallb_dict_set {A} (f : string * A -> bool) d k v :
  forallb f d = true -> f (k, v) = true -> forallb f (dict_set d k v) = true.
Proof.
  intros Hd Hv. induction d as [|[k' v'] d IH]; simpl in *.
  - now rewrite Hv.
  - apply andb_prop in Hd. destruct Hd as [H1 H2].
    destruct (String.eqb k' k); simpl; [now rewrite Hv, H2 | now rewrite H1, IH].
Qed.

Lemma normal_store_get store k v :
  normal_store store = true -> dict_get store k = Some v -> normal v = true.
Proof.
  unfold normal_store. induction store as [|[k' v'] d IH]; simpl; [discriminate|].
  intros H. apply andb_prop in H. destruct H as [H1 H2].
  destruct (String.eqb k' k); [intros E; inversion E; now subst | auto].
Qed.

Lemma set_attr_normal name value parent s :
  normal (stored value) = true ->
  normal_store (_store s) = true ->
  normal_store (_store (fst (set_attr name value parent s))) = true.
Proof.
  intros Hv Hs.
  assert (Hroot : normal_store (_store (fst (set_attr name value None s))) = true).
  { rewrite set_attr_root. simpl. now apply forallb_dict_set. }
  destruct parent as [p|]; [|exact Hroot].
  destruct (String.eqb p "") eqn:E.
  { rewrite set_attr_falsy; [exact Hroot | unfold truthy; now rewrite E]. }
  rewrite set_attr_truthy by (intros ->; discriminate).
  destruct (dict_get (_store s) p) as [x|] eqn:G.
  - pose proof (normal_store_get _ _ _ Hs G) as Hx.
    destruct x; try exact Hs. simpl in Hx |- *.
    apply andb_prop in Hx. destruct Hx as [Hk Hitems].
    apply forallb_dict_set; [assumption|]. simpl. rewrite Hk. simpl.
    now apply forallb_dict_set.
  - simpl. apply forallb_dict_set; [now apply forallb_dict_set|].
    simpl. now rewrite Hv.
Qed.

Lemma env_obj_normal o : normal (stored (env_obj o)) = true.
Proof. destruct o; reflexivity. Qed.

Lemma cast_like_normal w value attr v :
  cast_like w value attr = Cast v -> normal (stored v) = true.
Proof.
  unfold cast_like, cast_str, cast_int, cast_float.
  destruct value as [| | | | | | | | |[] ?]; destruct attr as [a|];
    try discriminate; intros H;
    repeat match type of H with
           | context [match ?x with _ => _ end] => destruct x; try discriminate
           end;
    inversion H; reflexivity.
Qed.

Lemma literal_normal value : is_dict value = false -> normal (stored value) = true.
Proof. destruct value; try discriminate; reflexivity. Qed.

Lemma _set_value_from_config_normal w value :
  forall name parent s,
    normal_store (_store s) = true ->
    normal_store (_store (fst (_set_value_from_config w name value parent s))) = true.
Proof.
  assert (Hover : forall v name parent s,
            normal_store (_store s) = true ->
            normal_store (_store (fst (_set_from_parent_env_var w name v parent s))) = true).
  { intros v name parent s Hs. unfold _set_from_parent_env_var.
    destruct parent as [p|]; [|exact Hs].
    destruct (cast_like w v (getenv w (nested_var w p name))) eqn:C.
    - apply set_attr_normal; eauto using cast_like_normal.
    - rewrite bind_run. unfold logger.
      apply (set_attr_normal name (env_obj (getenv w (nested_var w p name))) (Some p)
               (with_log s (LogInfoCastFailed (Some p) name (getenv w (nested_var w p name)))));
        [apply env_obj_normal | exact Hs].
    - exact Hs. }
  induction value as [v Hv | kind entries IH] using pyobj_nested_ind; intros name parent s Hs;
    rewrite _set_value_from_config_unfold.
  - destruct (direct_override w name parent);
      [apply set_attr_normal; auto using env_obj_normal|].
    destruct (nested_override w name parent); [auto|].
    assert (Hrest : normal_store (_store (fst
              ((if is_interpolation v then _set_from_env_var_interpolation w name v parent
                else if is_ssm_reference v then _set_from_ssm w name v parent
                else set_attr name v parent) s))) = true).
    { destruct (is_interpolation v).
      - unfold _set_from_env_var_interpolation.
        destruct (as_str v); [|exact Hs].
        destruct (PyStr.first_interpolation s0); [|exact Hs].
        destruct (in_environ w s1); apply set_attr_normal; auto using env_obj_normal.
      - destruct (is_ssm_reference v).
        + unfold _set_from_ssm. destruct (_boto_available w); [|exact Hs].
          cbv beta iota delta [negb]. destruct (as_str v); [|exact Hs].
          destruct (get_parameter w (PyStr.replace "ssm:" "" s0)); try exact Hs.
          now apply set_attr_normal.
        + apply set_attr_normal; auto using literal_normal. }
    destruct v; try exact Hrest. discriminate Hv.
  - destruct (direct_override w name parent);
      [apply set_attr_normal; auto using env_obj_normal|].
    destruct (nested_override w name parent); [auto|].
    apply (for_each_always (fun s0 => normal_store (_store s0) = true)); [|assumption].
    eapply Forall_impl; [exact IH|]. simpl. intros [k x] Hx s1 H1. apply Hx. exact H1.
Qed.

(** X14. For a file made of scalars and tables, whatever a load of it
    does, and also when it raises midway, it leaves the store in normal
    form: no value at the root or inside a stored table is of one of
    tomlkit's four scalar wrapper classes, and every stored mapping is a
    [Box]. What a subscript read returns after the load is therefore a
    builtin scalar or a [Box]. *)
Theorem load_leaves_normal_store w path self :
  read_toml w path <> NoSuchFile ->
  normal_store (store_after (load w path) self) = true /\
  (forall key v, result_of (__getitem__ key) (fst (load w path self)) = Return v ->
     normal v = true).
Proof.
  intros Hfile.
  assert (H : normal_store (store_after (load w path) self) = true).
  { unfold store_after, load. destruct (read_toml w path) as [| |data]; [contradiction| |].
    - reflexivity.
    - rewrite bind_run. unfold clear, set_store.
      destruct (dict_contains data "default"); [|reflexivity].
      cbv beta iota delta [negb].
      apply (for_each_always (fun s0 => normal_store (_store s0) = true)); [|reflexivity].
      rewrite Forall_forall. intros [table section] _ s Hs. unfold load_step.
      rewrite bind_run. unfold get_self. simpl fst. simpl snd.
      destruct (applies (env s) table); [|exact Hs].
      destruct section; try exact Hs. simpl.
      apply (for_each_always (fun s0 => normal_store (_store s0) = true)); [|assumption].
      rewrite Forall_forall. intros [k x] _ s1 H1. simpl.
      now apply _set_value_from_config_normal. }
  split; [exact H|]. intros key v. unfold result_of, __getitem__, box_get.
  destruct (dict_get (_store (fst (load w path self))) key) as [x|] eqn:G; [|discriminate].
  pose proof (normal_store_get _ _ _ H G) as Hx.
  destruct x; simpl; intros E; inversion E; subst; try reflexivity; try discriminate; exact Hx.
Qed.

Lemma load_leaves_normal_store_witness :
  let w := process [] false no_ssm (one_file "example.toml" one_level) in
  normal_store (store_after (load w "example.toml") (new_settings "local")) = true /\
  (forall key v,
     result_of (__getitem__ key) (fst (load w "example.toml" (new_settings "local"))) = Return v ->
     normal v = true).
Proof.
  apply (load_leaves_normal_store (process [] false no_ssm (one_file "example.toml" one_level))
           "example.toml" (new_settings "local")).
  discriminate.
Defined.

(** ** A literal entry after the load *)

Lemma literal_resolution w k v self :
  literal v = true ->
  in_environ w (str_upper w k) = false ->
  dict_get (store_after (_set_value_from_config w k v None) self) k = Some (to_builtin v).
Proof.
  unfold literal. intros Hl Henv.
  apply andb_prop in Hl. destruct Hl as [Hl Hssm]. apply andb_prop in Hl. destruct Hl as [Hd Hi].
  apply negb_true_iff in Hd, Hi, Hssm.
  unfold store_after. rewrite _set_value_from_config_scalar; auto.
  - rewrite Hi, Hssm, set_attr_root. simpl. rewrite dict_get_set_eq.
    unfold stored. destruct v; try reflexivity. discriminate.
  - unfold direct_override. now rewrite Henv.
Qed.

(** X15. A key with a literal raw value (not a table, a reference or a
    secret) and without an environment variable of its own name resolves,
    after a load that returns, to that value reduced to its builtin type,
    provided the table holding it is applied and nothing after it in the
    file writes the same root key. In particular a key that only the
    [default] table defines keeps the default's value. *)
Theorem literal_entry_after_load
    w path self settings_data pre table kind before k v after post :
  read_toml w path = Parsed settings_data ->
  settings_data = (pre ++ (table, PyDict kind (before ++ (k, v) :: after)) :: post)%list ->
  applies (env self) table = true ->
  literal v = true ->
  in_environ w (str_upper w k) = false ->
  forallb (leaves_root_key k) after = true ->
  forallb (fun section => negb (applies (env self) (fst section))
                          || section_leaves_root_key k (snd section)) post = true ->
  result_of (load w path) self = Return tt ->
  dict_get (store_after (load w path) self) k = Some (to_builtin v).
Proof.
  intros Hread Hdata Happ Hl Henv Hafter Hpost Hret.
  eapply load_entry_survives; eauto using literal_resolution.
  left. unfold literal in Hl. apply andb_prop in Hl. destruct Hl as [Hl _].
  apply andb_prop in Hl. destruct Hl as [Hd _]. now apply negb_true_iff in Hd.
Qed.

Lemma literal_entry_after_load_witness :
  let data := [ ("default", PyDict TomlTable
                   [("project_name", TomlString "configur"); ("retries", TomlInteger 3)]);
                ("dev", PyDict TomlTable [("project_name", TomlString "configur-dev")]) ] in
  let w := process [] false no_ssm (one_file "example.toml" data) in
  dict_get (store_after (load w "example.toml") (new_settings "dev")) "retries"
    = Some (PyInt 3).
Proof.
  exact (literal_entry_after_load
           (process [] false no_ssm
              (one_file "example.toml"
                 [ ("default", PyDict TomlTable
                      [("project_name", TomlString "configur"); ("retries", TomlInteger 3)]);
                   ("dev", PyDict TomlTable [("project_name", TomlString "configur-dev")]) ]))
           "example.toml" (new_settings "dev") _
           [] "default" TomlTable [("project_name", TomlString "configur")]
           "retries" (TomlInteger 3) []
           [("dev", PyDict TomlTable [("project_name", TomlString "configur-dev")])]
           eq_refl eq_refl eq_refl eq_refl eq_refl eq_refl eq_refl eq_refl).
Defined.

(** ** A table of literal values *)

Lemma set_attr_nested_frame name value p s :
  p <> "" ->
  parent_slot_free_or_mapping (_store s) p ->
  let s1 := fst (set_attr name value (Some p) s) in
  (forall c, c <> name -> nested_get (_store s1) p c = nested_get (_store s) p c) /\
  (forall other, other <> p -> dict_get (_store s1) other = dict_get (_store s) other) /\
  parent_slot_free_or_mapping (_store s1) p.
Proof.
  intros Hp Hslot. cbv zeta. rewrite set_attr_truthy by assumption.
  unfold parent_slot_free_or_mapping, nested_get in *.
  destruct (dict_get (_store s) p) as [x|] eqn:G.
  - destruct x; try discriminate. simpl. rewrite !dict_get_set_eq.
    repeat split.
    + intros c Hc. now rewrite dict_get_set_ne by congruence.
    + intros other Ho. rewrite dict_get_set_ne by congruence. reflexivity.
  - simpl. rewrite !dict_get_set_eq. repeat split.
    + intros c Hc. simpl. destruct (String.eqb name c) eqn:E; [|reflexivity].
      apply String.eqb_eq in E. congruence.
    + intros other Ho. rewrite !dict_get_set_ne by congruence. reflexivity.
Qed.

Lemma for_each_ext {A} (l : list A) (f g : A -> Py unit) :
  Forall (fun a => forall s, f a s = g a s) l ->
  forall s, for_each l f s = for_each l g s.
Proof.
  induction 1 as [|a l Ha _ IH]; intros s; simpl; [reflexivity|].
  rewrite !bind_run, Ha. destruct (g a s) as [s1 [[]|e]]; auto.
Qed.

Lemma for_each_cons {A} (x : A) l (body : A -> Py unit) s :
  for_each (x :: l) body s =
  match body x s with
  | (s1, Return _) => for_each l body s1
  | (s1, Raise e) => (s1, Raise e)
  end.
Proof. reflexivity. Qed.

Lemma children_written name entries :
  name <> "" ->
  forall s,
    parent_slot_free_or_mapping (_store s) name ->
    NoDup (dict_keys entries) ->
    let r := for_each entries (fun kv => set_attr (fst kv) (snd kv) (Some name)) s in
    snd r = Return tt /\
    (forall k v, In (k, v) entries -> nested_get (_store (fst r)) name k = Some (stored v)) /\
    (forall c, ~ In c (dict_keys entries) ->
       nested_get (_store (fst r)) name c = nested_get (_store s) name c) /\
    (forall other, other <> name -> dict_get (_store (fst r)) other = dict_get (_store s) other).
Proof.
  intros Hname. induction entries as [|[k v] rest IH]; intros s Hslot Hnd; cbv zeta.
  - simpl. repeat split; auto. intros k v [].
  - rewrite for_each_cons. cbn [fst snd].
    destruct (set_attr_nested k v name s Hname Hslot) as (Hret & Hget & _).
    destruct (set_attr_nested_frame k v name s Hname Hslot) as (Hframe & Hother & Hslot1).
    unfold result_of, store_after in Hret, Hget.
    destruct (set_attr k v (Some name) s) as [s1 o] eqn:E.
    cbn [fst snd] in Hret, Hget, Hframe, Hother, Hslot1 |- *. subst o.
    simpl in Hnd. apply NoDup_cons in Hnd. destruct Hnd as [Hnotin Hnd'].
    destruct (IH s1 Hslot1 Hnd') as (Hr & Hin & Hout & Hoth).
    split; [exact Hr|]. split; [|split].
    + intros k0 v0 [Heq|Hin0].
      * inversion Heq. subst k0 v0. rewrite Hout; [exact Hget|].
        intros Hc. apply Hnotin. apply list_elem_of_In. exact Hc.
      * now apply Hin.
    + intros c Hc.
      assert (Hck : c <> k) by (intros ->; apply Hc; now left).
      assert (Hcr : ~ In c (dict_keys rest)) by (intros H; apply Hc; now right).
      rewrite Hout by assumption. now apply Hframe.
    + intros other Ho. rewrite Hoth by assumption. now apply Hother.
Qed.

(** X16. A table at the root whose entries are literal values, resolved
    with no environment variable claiming the table or one of its entries
    and with its slot free or already a table, ends up as a table of the
    store: the call returns, every entry is found under the table's name
    with its value reduced to the builtin type, and the other root keys are
    as before. *)
Theorem table_of_literals_is_nested w name kind entries self :
  name <> "" ->
  in_environ w (str_upper w name) = false ->
  NoDup (dict_keys entries) ->
  forallb (fun kv => literal (snd kv) && negb (in_environ w (nested_var w name (fst kv))))
    entries = true ->
  parent_slot_free_or_mapping (_store self) name ->
  let m := _set_value_from_config w name (PyDict kind entries) None in
  result_of m self = Return tt /\
  (forall k v, In (k, v) entries ->
     nested_get (store_after m self) name k = Some (to_builtin v)) /\
  (forall other, other <> name ->
     dict_get (store_after m self) other = dict_get (_store self) other).
Proof.
  intros Hname Henv Hnd Hlit Hslot m. subst m. unfold result_of, store_after.
  rewrite _set_value_from_config_unfold. unfold direct_override. rewrite Henv.
  change (nested_override w name None) with false. cbv beta iota delta [andb].
  rewrite forallb_forall in Hlit.
  assert (Hnotdict : forall k v, In (k, v) entries -> is_dict v = false).
  { intros k v Hin. specialize (Hlit _ Hin). simpl in Hlit.
    unfold literal in Hlit. destruct (is_dict v); [discriminate | reflexivity]. }
  rewrite (for_each_ext _ _ (fun kv => set_attr (fst kv) (snd kv) (Some name))).
  - destruct (children_written name entries Hname self Hslot Hnd) as (Hr & Hin & _ & Hoth).
    split; [exact Hr|]. split; [|exact Hoth].
    intros k v Hkv. rewrite (Hin k v Hkv). unfold stored.
    pose proof (Hnotdict k v Hkv) as Hd.
    destruct v; try reflexivity. discriminate.
  - rewrite Forall_forall. intros [k v] Hkv s. simpl.
    specialize (Hlit _ (proj1 (list_elem_of_In _ _) Hkv)). simpl in Hlit.
    apply andb_prop in Hlit. destruct Hlit as [Hl Hvar]. apply negb_true_iff in Hvar.
    unfold literal in Hl. apply andb_prop in Hl. destruct Hl as [Hl Hssm].
    apply andb_prop in Hl. destruct Hl as [Hd Hi]. apply negb_true_iff in Hd, Hi, Hssm.
    rewrite _set_value_from_config_scalar; auto.
    + now rewrite Hi, Hssm.
    + unfold direct_override. rewrite (truthy_named _ Hname). apply andb_false_r.
    + unfold nested_override. rewrite (truthy_named _ Hname), Hvar. reflexivity.
Qed.

Lemma table_of_literals_is_nested_witness :
  let w := process [] false no_ssm (fun _ => NoSuchFile) in
  let m := _set_value_from_config w "new_table"
             (PyDict PlainDict [("a", PyInt 1); ("b", TomlInteger 2)]) None in
  result_of m (new_settings "local") = Return tt /\
  nested_get (store_after m (new_settings "local")) "new_table" "a" = Some (PyInt 1) /\
  nested_get (store_after m (new_settings "local")) "new_table" "b" = Some (PyInt 2).
Proof.
  assert (Hname : "new_table" <> "") by discriminate.
  assert (Hnd : NoDup (dict_keys [("a", PyInt 1); ("b", TomlInteger 2)])).
  { simpl. repeat constructor; simpl; intros H; inversion H; subst;
      try discriminate; match goal with H' : _ ∈ [] |- _ => inversion H' | _ => idtac end.
    all: match goal with H' : _ ∈ _ |- _ => inversion H' end. }
  pose proof (table_of_literals_is_nested
                (process [] false no_ssm (fun _ => NoSuchFile)) "new_table" PlainDict
                [("a", PyInt 1); ("b", TomlInteger 2)] (new_settings "local")
                Hname eq_refl Hnd eq_refl I) as (H1 & H2 & _).
  split; [exact H1|]. split.
  - apply (H2 "a" (PyInt 1)). simpl. auto.
  - apply (H2 "b" (TomlInteger 2)). simpl. auto.
Defined.

(** ** A load that fails midway *)

(** X17. [load] is not atomic. When the tables before some table of the
    file are applied without error and that table raises, the load raises
    the same exception at once: the tables after it are not applied, and
    the store keeps what was resolved up to the failure on top of the
    cleared store. *)
Theorem load_stops_at_first_error w path self settings_data pre ti post s1 s2 e :
  read_toml w path = Parsed settings_data ->
  dict_contains settings_data "default" = true ->
  settings_data = (pre ++ ti :: post)%list ->
  for_each pre (load_step w) (with_store self []) = (s1, Return tt) ->
  load_step w ti s1 = (s2, Raise e) ->
  load w path self = (s2, Raise e).
Proof.
  intros Hread Hdef -> Hpre Hstep. unfold load. rewrite Hread, bind_run.
  unfold clear, set_store. rewrite Hdef. cbv beta iota delta [negb].
  now apply (for_each_raises pre post ti (load_step w) _ s1 s2 e).
Qed.

Lemma load_stops_at_first_error_witness :
  let data := [ ("default", PyDict TomlTable [("level", TomlString "info")]);
                ("devices", TomlInteger 3);
                ("dev", PyDict TomlTable [("level", TomlString "debug")]) ] in
  let w := process [] false no_ssm (one_file "example.toml" data) in
  load w "example.toml" (new_settings "dev")
  = ({| _store := [("level", PyStr "info")]; env := "dev"; log_records := [] |},
     Raise AttributeError).
Proof.
  exact (load_stops_at_first_error
           (process [] false no_ssm
              (one_file "example.toml"
                 [ ("default", PyDict TomlTable [("level", TomlString "info")]);
                   ("devices", TomlInteger 3);
                   ("dev", PyDict TomlTable [("level", TomlString "debug")]) ]))
           "example.toml" (new_settings "dev") _
           [("default", PyDict TomlTable [("level", TomlString "info")])]
           ("devices", TomlInteger 3)
           [("dev", PyDict TomlTable [("level", TomlString "debug")])]
           {| _store := [("level", PyStr "info")]; env := "dev"; log_records := [] |}
           {| _store := [("level", PyStr "info")]; env := "dev"; log_records := [] |}
           AttributeError eq_refl eq_refl eq_refl eq_refl eq_refl).
Defined.
